(** * results_analysis.py: portfolio statistics over closed trading positions

    A shallow embedding of [src/results_analysis.py] and the properties of
    its statistics pipeline: monthly profit bucketing, the win/loss
    breakdown, the Sharpe ratio block and the per-symbol rollup.

    Python [float] arithmetic is kept behind the interface [PyFloat], with
    two instances: IEEE binary64 (what CPython and numpy run) and the real
    numbers (the arithmetic the prose of the specification has in mind).
    Structural theorems hold for every instance; statements that depend on
    exact addition say so in their hypotheses. *)

From Stdlib Require Import ZArith QArith Floats Reals Lra Lia List.
From stdpp Require Import gmap strings list fin_maps.

#[local] Open Scope Z_scope.

(** ** Python outcomes *)

(** Exceptions.  [IndexError] and [ZeroDivisionError] are the two built-in
    exceptions the statements of the source can raise.  The other three are
    the error names of the specification; the source has no [raise]
    statement and defines no exception class, so no model function ever
    produces them. *)
Inductive exception : Set :=
  | IndexError
  | ZeroDivisionError
  | EmptyInputError
  | UndefinedRatioError
  | NoTradesInCategoryError.

Inductive result (A : Type) : Type :=
  | Ok (a : A)
  | Raise (e : exception).
Arguments Ok {A} a.
Arguments Raise {A} e.

#[global] Instance result_ret : MRet result := fun A a => Ok a.
#[global] Instance result_bind : MBind result := fun A B f m =>
  match m with
  | Ok a => f a
  | Raise e => Raise e
  end.

(** ** Float arithmetic *)

(** The operations of Python's [float] the source uses.  [zero] is [0.0],
    which is also what the [int] 0 becomes in mixed arithmetic
    ([sum] starts from 0, [defaultdict(int)] starts from 0); [of_int] is
    [float(n)]; [lit] is a decimal literal; [ltb] and [eqb] are [<] and
    [==].  The four laws are the facts about comparison with [0.0] the
    win/loss classifier relies on.  They hold in IEEE arithmetic, signed
    zeros and NaN included: a value [x] with [x != x] is a NaN. *)
Class PyFloat (F : Type) : Type := {
  zero : F;
  of_int : Z -> F;
  lit : Q -> F;
  add : F -> F -> F;
  sub : F -> F -> F;
  mul : F -> F -> F;
  div : F -> F -> F;
  sqrt : F -> F;
  ltb : F -> F -> bool;
  eqb : F -> F -> bool;
  ltb_zero_asym : forall x, ltb zero x = true -> ltb x zero = false;
  eqb_zero_not_ltb :
    forall x, eqb x zero = true -> ltb zero x = false /\ ltb x zero = false;
  nan_not_ltb :
    forall x, eqb x x = false -> ltb zero x = false /\ ltb x zero = false;
  not_ltb_zero_or_nan :
    forall x, ltb zero x = false -> ltb x zero = false ->
              eqb x zero = true \/ eqb x x = false
}.

(** *** IEEE binary64 *)

Module Binary64.

(** [float(n)] for [|n| < 2^63]; exact below [2^53]. *)
Definition float_of_int (z : Z) : float :=
  if 0 <=? z then PrimFloat.of_uint63 (Uint63.of_Z z)
  else PrimFloat.opp (PrimFloat.of_uint63 (Uint63.of_Z (- z))).

(** A decimal literal [n/d]: the correctly rounded quotient of two exactly
    represented integers is the float nearest to [n/d]. *)
Definition float_lit (q : Q) : float :=
  PrimFloat.div (float_of_int (Qnum q)) (float_of_int (Zpos (Qden q))).

Lemma float_ltb_zero_asym (x : float) :
  PrimFloat.ltb 0%float x = true -> PrimFloat.ltb x 0%float = false.
Proof.
  rewrite !ltb_spec. change (Prim2SF 0%float) with (S754_zero false).
  destruct (Prim2SF x) as [s | s | | s m e]; try destruct s; cbn;
    congruence.
Qed.

Lemma float_eqb_zero_not_ltb (x : float) :
  PrimFloat.eqb x 0%float = true ->
  PrimFloat.ltb 0%float x = false /\ PrimFloat.ltb x 0%float = false.
Proof.
  rewrite FloatAxioms.eqb_spec, !ltb_spec.
  change (Prim2SF 0%float) with (S754_zero false).
  destruct (Prim2SF x) as [s | s | | s m e]; try destruct s; cbn;
    intuition congruence.
Qed.

Lemma float_nan_not_ltb (x : float) :
  PrimFloat.eqb x x = false ->
  PrimFloat.ltb 0%float x = false /\ PrimFloat.ltb x 0%float = false.
Proof.
  rewrite FloatAxioms.eqb_spec, !ltb_spec.
  change (Prim2SF 0%float) with (S754_zero false).
  destruct (Prim2SF x) as [s | s | | s m e]; try destruct s; cbn;
    rewrite ?Z.compare_refl, ?Pos.compare_refl; cbn; intuition congruence.
Qed.

Lemma float_not_ltb_zero_or_nan (x : float) :
  PrimFloat.ltb 0%float x = false -> PrimFloat.ltb x 0%float = false ->
  PrimFloat.eqb x 0%float = true \/ PrimFloat.eqb x x = false.
Proof.
  rewrite !FloatAxioms.eqb_spec, !ltb_spec.
  change (Prim2SF 0%float) with (S754_zero false).
  destruct (Prim2SF x) as [s | s | | s m e]; try destruct s; cbn;
    intuition congruence.
Qed.

#[global] Instance binary64 : PyFloat float := {|
  zero := 0%float;
  of_int := float_of_int;
  lit := float_lit;
  add := PrimFloat.add;
  sub := PrimFloat.sub;
  mul := PrimFloat.mul;
  div := PrimFloat.div;
  sqrt := PrimFloat.sqrt;
  ltb := PrimFloat.ltb;
  eqb := PrimFloat.eqb;
  ltb_zero_asym := float_ltb_zero_asym;
  eqb_zero_not_ltb := float_eqb_zero_not_ltb;
  nan_not_ltb := float_nan_not_ltb;
  not_ltb_zero_or_nan := float_not_ltb_zero_or_nan
|}.

End Binary64.

(** *** Real numbers *)

Module Exact.

Definition real_ltb (x y : R) : bool := if Rlt_dec x y then true else false.
Definition real_eqb (x y : R) : bool := if Req_dec_T x y then true else false.

Lemma real_ltb_zero_asym (x : R) :
  real_ltb 0%R x = true -> real_ltb x 0%R = false.
Proof.
  unfold real_ltb. destruct (Rlt_dec 0 x), (Rlt_dec x 0); try congruence. lra.
Qed.

Lemma real_eqb_zero_not_ltb (x : R) :
  real_eqb x 0%R = true ->
  real_ltb 0%R x = false /\ real_ltb x 0%R = false.
Proof.
  unfold real_eqb, real_ltb.
  destruct (Req_dec_T x 0), (Rlt_dec 0 x), (Rlt_dec x 0);
    try (intuition congruence); lra.
Qed.

Lemma real_nan_not_ltb (x : R) :
  real_eqb x x = false ->
  real_ltb 0%R x = false /\ real_ltb x 0%R = false.
Proof. unfold real_eqb. destruct (Req_dec_T x x); congruence. Qed.

Lemma real_not_ltb_zero_or_nan (x : R) :
  real_ltb 0%R x = false -> real_ltb x 0%R = false ->
  real_eqb x 0%R = true \/ real_eqb x x = false.
Proof.
  unfold real_eqb, real_ltb.
  destruct (Req_dec_T x 0), (Rlt_dec 0 x), (Rlt_dec x 0);
    try (intuition congruence); lra.
Qed.

#[global] Instance real_numbers : PyFloat R := {|
  zero := 0%R;
  of_int := IZR;
  lit := Q2R;
  add := Rplus;
  sub := Rminus;
  mul := Rmult;
  div := Rdiv;
  sqrt := R_sqrt.sqrt;
  ltb := real_ltb;
  eqb := real_eqb;
  ltb_zero_asym := real_ltb_zero_asym;
  eqb_zero_not_ltb := real_eqb_zero_not_ltb;
  nan_not_ltb := real_nan_not_ltb;
  not_ltb_zero_or_nan := real_not_ltb_zero_or_nan
|}.

End Exact.

(** ** Data model *)

(** The fields of [datetime.datetime] the source reads. *)
Record datetime : Set := {
  year : Z;
  month : Z;
  day : Z;
  hour : Z;
  minute : Z;
  second : Z
}.

(** [dt.date()], as (year, month, day). *)
Definition date (dt : datetime) : Z * Z * Z := (year dt, month dt, day dt).

(** The key built at lines 68 and 94-97: [(day, month, year)]. *)
Definition day_key (dt : datetime) : Z * Z * Z := (day dt, month dt, year dt).

(** The namedtuple [EnrichedPosition] (lines 16-32). *)
Record EnrichedPosition (F : Type) : Type := {
  open_bsi : F;
  open_price : F;
  open_timestamp : Z;
  close_bsi : F;
  close_price : F;
  close_timestamp : Z;
  profit : F;
  symbol : string;
  std_dev : F;
  open_datetime : datetime;
  close_datetime : datetime
}.
Arguments open_bsi {F} _.
Arguments open_price {F} _.
Arguments open_timestamp {F} _.
Arguments close_bsi {F} _.
Arguments close_price {F} _.
Arguments close_timestamp {F} _.
Arguments profit {F} _.
Arguments symbol {F} _.
Arguments std_dev {F} _.
Arguments open_datetime {F} _.
Arguments close_datetime {F} _.

(** The dictionaries returned by [_generate_symbol_data] and
    [_generate_analysis], one record per [dict(...)] call. *)
Record SymbolData (F : Type) : Type := {
  symbol_to_profit : gmap string F;
  symbol_to_exec_n : gmap string Z;
  symbol_to_exec_avg_n : gmap string F
}.
Arguments symbol_to_profit {F} _.
Arguments symbol_to_exec_n {F} _.
Arguments symbol_to_exec_avg_n {F} _.

Record General (F : Type) : Type := {
  start : Z * Z * Z;
  end_ : Z * Z * Z;
  symbols_n : Z;
  days_n : Z;
  general_profit : F;
  exec_n : Z;
  daily_exec_n : F;
  daily_exec_symbol_n : F
}.
Arguments start {F} _.
Arguments end_ {F} _.
Arguments symbols_n {F} _.
Arguments days_n {F} _.
Arguments general_profit {F} _.
Arguments exec_n {F} _.
Arguments daily_exec_n {F} _.
Arguments daily_exec_symbol_n {F} _.

Record WinningTrades (F : Type) : Type := {
  total_won : F;
  won_n : Z;
  average_win : F
}.
Arguments total_won {F} _.
Arguments won_n {F} _.
Arguments average_win {F} _.

Record LosingTrades (F : Type) : Type := {
  total_lost : F;
  lost_n : Z;
  average_loss : F
}.
Arguments total_lost {F} _.
Arguments lost_n {F} _.
Arguments average_loss {F} _.

Record SharpeRatio (F : Type) : Type := {
  us10y_monthly_yield : F;
  excess_average : F;
  excess_std_dev : F;
  sharpe_ratio_value : F
}.
Arguments us10y_monthly_yield {F} _.
Arguments excess_average {F} _.
Arguments excess_std_dev {F} _.
Arguments sharpe_ratio_value {F} _.

Record Analysis (F : Type) : Type := {
  general : General F;
  winning_trades : WinningTrades F;
  losing_trades : LosingTrades F;
  sharpe_ratio : SharpeRatio F;
  symbol_data : SymbolData F
}.
Arguments general {F} _.
Arguments winning_trades {F} _.
Arguments losing_trades {F} _.
Arguments sharpe_ratio {F} _.
Arguments symbol_data {F} _.

(** ** The program *)

Section Program.

Context {F : Type} `{PyFloat F}.

Abbreviation position := (EnrichedPosition F).

(** [len(l)] *)
Definition len {A : Type} (l : list A) : Z := Z.of_nat (length l).

(** The built-in [sum] of a list of floats: a left-to-right accumulation
    that starts from the [int] 0 (CPython up to 3.11; from 3.12 on the
    accumulation of floats is compensated). *)
Definition py_sum (l : list F) : F := fold_left add l zero.

(** The three mixed divisions of the source.  Python raises
    [ZeroDivisionError] when the divisor is the [int] 0 or compares equal
    to [0.0]. *)
Definition int_truediv_int (a b : Z) : result F :=
  if b =? 0 then Raise ZeroDivisionError else Ok (div (of_int a) (of_int b)).

Definition float_truediv_int (x : F) (b : Z) : result F :=
  if b =? 0 then Raise ZeroDivisionError else Ok (div x (of_int b)).

Definition int_truediv_float (a : Z) (y : F) : result F :=
  if eqb y zero then Raise ZeroDivisionError else Ok (div (of_int a) y).

(** [numpy.std(a, ddof=ddof)] as numpy documents and implements it
    ([_methods._var]): the mean, the squared deviations from it, their
    sum over [max(N - ddof, 0)], and the square root.  numpy is not part
    of the repository; its summation is taken left to right, which is
    what it does for fewer than 8 elements. *)
Definition numpy_std (ddof : Z) (a : list F) : F :=
  let arrmean := div (py_sum a) (of_int (len a)) in
  let x := map (fun v => sub v arrmean) a in
  let x := map (fun v => mul v v) x in
  sqrt (div (py_sum x) (of_int (Z.max (len a - ddof) 0))).

Definition TREASURY_MONTHLY_YIELD : F := lit 0.12%Q.

(** *** [_calc_monthly_profits] (lines 35-50) *)

(** One iteration of the loop at lines 40-47, on the state
    [(results, curr_month, curr_result)]. *)
Definition monthly_step (st : list F * Z * F) (p : position)
  : list F * Z * F :=
  let '(results, curr_month, curr_result) := st in
  let m := month (open_datetime p) in
  if negb (m =? curr_month)
  then (results ++ [curr_result], m, profit p)
  else (results, curr_month, add curr_result (profit p)).

Definition _calc_monthly_profits (positions : list position)
  : result (list F) :=
  match positions with
  | [] => Raise IndexError
  | first :: _ =>
      let '(results, _, curr_result) :=
        fold_left monthly_step positions
          ([], month (open_datetime first), zero) in
      Ok (results ++ [curr_result])
  end.

(** *** [_generate_symbol_data] (lines 59-86) *)

(** One iteration of the loop at lines 66-75, on the state
    [(traded_days, symbol_to_profit, symbol_to_exec_n)]. *)
Definition symbol_step
    (st : gset (Z * Z * Z) * gmap string F * gmap string Z) (p : position)
  : gset (Z * Z * Z) * gmap string F * gmap string Z :=
  let '(traded_days, to_profit, to_exec_n) := st in
  let s := symbol p in
  ({[ day_key (open_datetime p) ]} ∪ traded_days,
   <[ s := add (default zero (to_profit !! s)) (profit p) ]> to_profit,
   <[ s := default 0 (to_exec_n !! s) + 1 ]> to_exec_n).

(** The loop at lines 79-80 divides once per entry of
    [symbol_to_exec_n]; with no entry nothing is divided. *)
Definition _generate_symbol_data (positions : list position)
  : result (SymbolData F) :=
  let '(traded_days, to_profit, to_exec_n) :=
    fold_left symbol_step positions (∅, ∅, ∅) in
  let traded_days_n := Z.of_nat (size traded_days) in
  to_exec_avg_n ←
    (if bool_decide (to_exec_n = ∅) then Ok ∅
     else if traded_days_n =? 0 then Raise ZeroDivisionError
     else Ok ((fun n => div (of_int n) (of_int traded_days_n)) <$> to_exec_n));
  Ok {| symbol_to_profit := to_profit;
        symbol_to_exec_n := to_exec_n;
        symbol_to_exec_avg_n := to_exec_avg_n |}.

(** *** [_generate_analysis] (lines 89-158) *)

(** Lines 91-103. *)
Definition traded_days (all_positions : list position) : Z :=
  Z.of_nat (size (list_to_set (map (fun p => day_key (open_datetime p))
                                   all_positions) : gset (Z * Z * Z))).

(** Lines 105-107. *)
Definition count_symbols (all_positions : list position) : Z :=
  Z.of_nat (size (list_to_set (map symbol all_positions) : gset string)).

(** Lines 112 and 118. *)
Definition winning (all_positions : list position) : list position :=
  filter (fun p => ltb zero (profit p) = true) all_positions.

Definition losing (all_positions : list position) : list position :=
  filter (fun p => ltb (profit p) zero = true) all_positions.

(** Lines 112-115.  [sum] of the empty list is the [int] 0, which the
    division treats like any other dividend. *)
Definition calc_winning_trades (all_positions : list position)
  : result (WinningTrades F) :=
  let winning_trades := winning all_positions in
  let won_n := len winning_trades in
  let total_won := py_sum (map profit winning_trades) in
  average_win ← float_truediv_int total_won won_n;
  Ok {| total_won := total_won; won_n := won_n;
        average_win := average_win |}.

(** Lines 118-121. *)
Definition calc_losing_trades (all_positions : list position)
  : result (LosingTrades F) :=
  let losing_trades := losing all_positions in
  let lost_n := len losing_trades in
  let total_lost := py_sum (map profit losing_trades) in
  average_loss ← float_truediv_int total_lost lost_n;
  Ok {| total_lost := total_lost; lost_n := lost_n;
        average_loss := average_loss |}.

(** Lines 125-128, on the list of monthly profits.  The last division has
    a [numpy.float64] divisor, so numpy performs it: no exception, the
    IEEE quotient. *)
Definition calc_sharpe_ratio (monthly_profits : list F)
  : result (SharpeRatio F) :=
  let excess_profits :=
    map (fun p => sub p TREASURY_MONTHLY_YIELD) monthly_profits in
  let excess_std_dev := numpy_std 0 excess_profits in
  excess_average ←
    float_truediv_int (py_sum excess_profits) (len excess_profits);
  let sharpe_ratio := div excess_average excess_std_dev in
  Ok {| us10y_monthly_yield := TREASURY_MONTHLY_YIELD;
        excess_average := excess_average;
        excess_std_dev := excess_std_dev;
        sharpe_ratio_value := sharpe_ratio |}.

(** [l[0]] and [l[-1]]. *)
Definition first_item {A : Type} (l : list A) : result A :=
  match l with
  | [] => Raise IndexError
  | x :: _ => Ok x
  end.

Definition last_item {A : Type} (l : list A) : result A :=
  match last l with
  | None => Raise IndexError
  | Some x => Ok x
  end.

Definition _generate_analysis (all_positions : list position)
  : result (Analysis F) :=
  (* general *)
  let traded_days := traded_days all_positions in
  let exec_n := len all_positions * 2 in
  let symbols_n := count_symbols all_positions in
  avg_trades_per_day ← int_truediv_int exec_n traded_days;
  avg_trades_per_day_per_symbol ←
    int_truediv_float symbols_n avg_trades_per_day;
  (* winning trades, losing trades *)
  winning_trades ← calc_winning_trades all_positions;
  losing_trades ← calc_losing_trades all_positions;
  (* sharpe ratio *)
  monthly_profits ← _calc_monthly_profits all_positions;
  sharpe_ratio ← calc_sharpe_ratio monthly_profits;
  (* the returned dictionary *)
  first ← first_item all_positions;
  final ← last_item all_positions;
  symbol_data ← _generate_symbol_data all_positions;
  Ok {| general :=
          {| start := date (open_datetime first);
             end_ := date (close_datetime final);
             symbols_n := symbols_n;
             days_n := traded_days;
             general_profit := py_sum monthly_profits;
             exec_n := len all_positions * 2;
             daily_exec_n := avg_trades_per_day;
             daily_exec_symbol_n := avg_trades_per_day_per_symbol |};
        winning_trades := winning_trades;
        losing_trades := losing_trades;
        sharpe_ratio := sharpe_ratio;
        symbol_data := symbol_data |}.

End Program.

(** ** Reference definitions

    What the prose of the specification describes, written independently
    of the loops of the source, to compare the program with. *)

Section Reference.

Context {F : Type} `{PyFloat F}.

Abbreviation position := (EnrichedPosition F).

Definition open_month (p : position) : Z := month (open_datetime p).

(** Does the run [r] start in month [m]? *)
Definition starts_in (m : Z) (r : list position) : bool :=
  match r with
  | q :: _ => open_month q =? m
  | [] => false
  end.

(** The maximal contiguous runs of positions with the same open month
    number, in input order. *)
Fixpoint month_runs (l : list position) : list (list position) :=
  match l with
  | [] => []
  | p :: tl =>
      match month_runs tl with
      | [] => [[p]]
      | r :: rs =>
          if starts_in (open_month p) r then (p :: r) :: rs
          else [p] :: r :: rs
      end
  end.

(** The profits of a run added left to right, from the first one. *)
Definition run_total (r : list position) : F :=
  match r with
  | [] => zero
  | p :: tl => fold_left add (map profit tl) (profit p)
  end.

(** One value per run.  The first run is accumulated from [0.0], as the
    initialisation at line 39 has it. *)
Definition bucket_values (runs : list (list position)) : list F :=
  match runs with
  | [] => []
  | r :: rs => py_sum (map profit r) :: map run_total rs
  end.

(** A run: not empty, and of one month number. *)
Definition same_month_run (r : list position) : Prop :=
  r <> [] /\ forall p q, p ∈ r -> q ∈ r -> open_month p = open_month q.

(** What the loop returns from the state [(results, m, c)]: the finished
    buckets, then the running bucket, which absorbs the first run ahead
    when that run starts in month [m]. *)
Definition absorb (m : Z) (c : F) (rs : list (list position)) : list F :=
  match rs with
  | r :: rs' =>
      if starts_in m r
      then fold_left add (map profit r) c :: map run_total rs'
      else c :: map run_total rs
  | [] => [c]
  end.

Definition finish (st : list F * Z * F) : list F :=
  let '(results, _, curr_result) := st in results ++ [curr_result].

(** Arithmetic mean and population standard deviation (divisor [N]) of a
    list, and the sample standard deviation (divisor [N - 1]) for
    contrast. *)
Definition mean (l : list F) : F := div (py_sum l) (of_int (len l)).

Definition squared_deviations (l : list F) : list F :=
  map (fun v => mul (sub v (mean l)) (sub v (mean l))) l.

Definition population_std (l : list F) : F :=
  sqrt (div (py_sum (squared_deviations l)) (of_int (len l))).

Definition sample_std (l : list F) : F :=
  sqrt (div (py_sum (squared_deviations l)) (of_int (len l - 1))).

(** The excess returns over the risk-free rate [r]. *)
Definition excess (r : F) (monthly_profits : list F) : list F :=
  map (fun b => sub b r) monthly_profits.

(** The positions of one symbol. *)
Definition of_symbol (s : string) (l : list position) : list position :=
  filter (fun p => symbol p = s) l.

(** The sum of the values of a dictionary of counts. *)
Definition sum_values (m : gmap string Z) : Z :=
  map_fold (fun _ v acc => v + acc) 0 m.

(** The condition under which [_generate_analysis] returns a report:
    there is a winning and a losing position, and the average number of
    executions per day does not compare equal to [0.0]. *)
Definition analysis_defined (l : list position) : bool :=
  negb (len (winning l) =? 0) && negb (len (losing l) =? 0)
  && negb (eqb (div (of_int (len l * 2)) (of_int (traded_days l))) zero).

(** What a returned report is made of. *)
Definition assembled (l : list position) (a : Analysis F)
  (monthly_profits : list F) (sd : SymbolData F) : Prop :=
  _calc_monthly_profits l = Ok monthly_profits
  /\ _generate_symbol_data l = Ok sd
  /\ calc_winning_trades l = Ok (winning_trades a)
  /\ calc_losing_trades l = Ok (losing_trades a)
  /\ calc_sharpe_ratio monthly_profits = Ok (sharpe_ratio a)
  /\ symbol_data a = sd
  /\ general_profit (general a) = py_sum monthly_profits
  /\ exec_n (general a) = len l * 2
  /\ days_n (general a) = traded_days l
  /\ symbols_n (general a) = count_symbols l
  /\ daily_exec_n (general a)
     = div (of_int (len l * 2)) (of_int (traded_days l))
  /\ daily_exec_symbol_n (general a)
     = div (of_int (count_symbols l)) (daily_exec_n (general a)).

(** The order of two datetimes of one time zone, field by field, and the
    precondition of the report assembler: the positions are in ascending
    order of open time ([main] sorts them at line 238). *)
Definition datetime_compare (a b : datetime) : comparison :=
  match year a ?= year b with
  | Eq =>
      match month a ?= month b with
      | Eq =>
          match day a ?= day b with
          | Eq =>
              match hour a ?= hour b with
              | Eq =>
                  match minute a ?= minute b with
                  | Eq => second a ?= second b
                  | c => c
                  end
              | c => c
              end
          | c => c
          end
      | c => c
      end
  | c => c
  end.

Fixpoint sorted_by_open_time (l : list position) : bool :=
  match l with
  | p :: (q :: _) as tl =>
      match datetime_compare (open_datetime p) (open_datetime q) with
      | Gt => false
      | _ => sorted_by_open_time tl
      end
  | _ => true
  end.

End Reference.

(** ** The caller: [main] (lines 217-244) *)

(** The raw records [main] reads: the namedtuple [Position] (lines 16-23)
    and one dictionary per line of the results file, with the keys
    symbol, std_dev and positions. *)
Module Raw.

Record Position (F : Type) : Type := {
  open_bsi : F;
  open_price : F;
  open_timestamp : Z;
  close_bsi : F;
  close_price : F;
  close_timestamp : Z;
  profit : F
}.
Arguments open_bsi {F} _.
Arguments open_price {F} _.
Arguments open_timestamp {F} _.
Arguments close_bsi {F} _.
Arguments close_price {F} _.
Arguments close_timestamp {F} _.
Arguments profit {F} _.

Record Result (F : Type) : Type := {
  symbol : string;
  std_dev : F;
  positions : list (Position F)
}.
Arguments symbol {F} _.
Arguments std_dev {F} _.
Arguments positions {F} _.

End Raw.

(** [list.sort(key=key)]: a stable sort that compares keys with [<] only.
    The keys of [main] are datetimes, which [<] orders as a strict weak
    order; on such keys every stable sort returns the same list, and the
    insertion sort below stands for CPython's. *)
Section Sort.

Context {A K : Type} (lt : K -> K -> bool) (key : A -> K).

Fixpoint sort_insert (x : A) (l : list A) : list A :=
  match l with
  | [] => [x]
  | y :: tl =>
      if lt (key y) (key x) then y :: sort_insert x tl else x :: y :: tl
  end.

Definition list_sort (l : list A) : list A := foldr sort_insert [] l.

End Sort.

Section Main.

Context {F : Type} `{PyFloat F}.

(** [_utc_ts_to_et_dt] (lines 53-56) converts an epoch timestamp with
    pytz and its time zone database, and [<] on the resulting datetimes
    is that of [datetime]; both are taken as given. *)
Variable _utc_ts_to_et_dt : Z -> datetime.
Variable datetime_lt : datetime -> datetime -> bool.

(** Lines 229-235: the seven fields of the raw position, then the symbol
    and volatility of its batch, then the two converted timestamps. *)
Definition enrich (result : Raw.Result F) (position : Raw.Position F)
  : EnrichedPosition F :=
  {| open_bsi := Raw.open_bsi position;
     open_price := Raw.open_price position;
     open_timestamp := Raw.open_timestamp position;
     close_bsi := Raw.close_bsi position;
     close_price := Raw.close_price position;
     close_timestamp := Raw.close_timestamp position;
     profit := Raw.profit position;
     symbol := Raw.symbol result;
     std_dev := Raw.std_dev result;
     open_datetime := _utc_ts_to_et_dt (Raw.open_timestamp position);
     close_datetime := _utc_ts_to_et_dt (Raw.close_timestamp position) |}.

(** Lines 225-236: the list [all_positions] before it is sorted. *)
Definition all_positions (results : list (Raw.Result F))
  : list (EnrichedPosition F) :=
  flat_map (fun result => map (enrich result) (Raw.positions result)) results.

(** Lines 238-240, from the decoded lines of the results file to the
    analysis.  The file is written and the summary printed only when
    [_generate_analysis] returns. *)
Definition main (results : list (Raw.Result F)) : result (Analysis F) :=
  _generate_analysis (list_sort datetime_lt open_datetime (all_positions results)).

(** The seven raw fields of an enriched position. *)
Definition raw_fields (p : EnrichedPosition F) : Raw.Position F :=
  {| Raw.open_bsi := open_bsi p;
     Raw.open_price := open_price p;
     Raw.open_timestamp := open_timestamp p;
     Raw.close_bsi := close_bsi p;
     Raw.close_price := close_price p;
     Raw.close_timestamp := close_timestamp p;
     Raw.profit := profit p |}.

End Main.

(** ** More reference definitions *)

Section MoreReference.

Context {F : Type} `{PyFloat F}.

Abbreviation position := (EnrichedPosition F).

(** The number of neighbouring pairs with different open month numbers. *)
Fixpoint month_changes (l : list position) : nat :=
  match l with
  | p :: (q :: _) as tl =>
      if open_month p =? open_month q then month_changes tl
      else S (month_changes tl)
  | _ => 0%nat
  end.

(** What [_generate_analysis] reads of a position, apart from the close
    date of the last one: its profit, its symbol and its open day. *)
Definition same_inputs (p q : position) : Prop :=
  profit p = profit q /\ symbol p = symbol q
  /\ day_key (open_datetime p) = day_key (open_datetime q).

(** The sum of the values of a dictionary of profits. *)
Definition sum_profit_values (m : gmap string F) : F :=
  map_fold (fun _ v acc => add v acc) zero m.

(** Ascending order of the keys, pair by pair: no element is followed by
    one with a smaller key. *)
Definition ascending {A K : Type} (lt : K -> K -> bool) (key : A -> K)
    (l : list A) : Prop :=
  forall i x y, l !! i = Some x -> l !! S i = Some y ->
                lt (key y) (key x) = false.


(** [a < b] for two datetimes of one time zone. *)
Definition datetime_ltb (a b : datetime) : bool :=
  match datetime_compare a b with
  | Lt => true
  | _ => false
  end.

End MoreReference.

(** ** Concrete inputs *)

Module Inputs.

(** A position of symbol [s] opened and closed on day [d] of month [m] of
    year [y], with profit [pr]; the fields no function reads are 0. *)
Definition at_day {F : Type} `{PyFloat F}
    (s : string) (y m d : Z) (pr : F) : EnrichedPosition F :=
  {| open_bsi := zero; open_price := zero; open_timestamp := 0;
     close_bsi := zero; close_price := zero; close_timestamp := 0;
     profit := pr; symbol := s; std_dev := zero;
     open_datetime := {| year := y; month := m; day := d;
                         hour := 10; minute := 0; second := 0 |};
     close_datetime := {| year := y; month := m; day := d;
                          hour := 11; minute := 0; second := 0 |} |}.

(** The end-to-end scenario of the specification: two positions of one
    symbol on one day, profits +10.0 and -4.0. *)
Definition same_day : list (EnrichedPosition float) :=
  [at_day "AAPL" 2020 1 2 10%float; at_day "AAPL" 2020 1 2 (-4)%float].

(** One winning position only. *)
Definition one_winner : list (EnrichedPosition float) :=
  [at_day "AAPL" 2020 1 2 10%float].

(** January 2020 with profits 1e16, 1.0, 1.0, then February 2020 with
    profits 3.0, -1.0.  The exact total is 1e16 + 4. *)
Definition large_then_small : list (EnrichedPosition float) :=
  [at_day "A" 2020 1 2 1e16%float; at_day "A" 2020 1 3 1%float;
   at_day "A" 2020 1 4 1%float; at_day "A" 2020 2 3 3%float;
   at_day "A" 2020 2 4 (-1)%float].

(** A winner, a loser and a position whose profit is NaN. *)
Definition with_nan : list (EnrichedPosition float) :=
  [at_day "A" 2020 1 2 1%float; at_day "A" 2020 1 3 (-1)%float;
   at_day "A" 2020 1 4 nan].

(** January 2020 followed by January 2021. *)
Definition jan_2020 : EnrichedPosition float := at_day "A" 2020 1 30 3%float.
Definition jan_2021 : EnrichedPosition float :=
  at_day "A" 2021 1 4 (-2)%float.
Definition january_twice : list (EnrichedPosition float) :=
  [jan_2020; jan_2021].

(** January, February, January again. *)
Definition month_resumed : list (EnrichedPosition float) :=
  [at_day "A" 2020 1 30 3%float; at_day "A" 2020 1 31 1%float;
   at_day "A" 2020 2 4 (-2)%float; at_day "A" 2021 1 5 4%float].

(** Symbol A on one day, symbol B on another. *)
Definition two_symbols : list (EnrichedPosition float) :=
  [at_day "A" 2020 1 2 3%float; at_day "B" 2020 1 3 (-2)%float].

(** The same scenario as [same_day] over the reals. *)
Definition same_day_exact : list (EnrichedPosition R) :=
  [at_day "AAPL" 2020 1 2 10%R; at_day "AAPL" 2020 1 2 (-4)%R].

End Inputs.

Module MoreInputs.

(** The scenario [Inputs.same_day] in the other order. *)
Definition same_day_reversed : list (EnrichedPosition float) :=
  [Inputs.at_day "AAPL" 2020 1 2 (-4)%float;
   Inputs.at_day "AAPL" 2020 1 2 10%float].

(** The scenario [Inputs.same_day] with other prices, timestamps,
    volatility and times of day; the last position closes on the same
    date. *)
Definition other_fields (pr : float) (h : Z) : EnrichedPosition float :=
  {| open_bsi := 7%float; open_price := 101.5%float; open_timestamp := 42;
     close_bsi := 9%float; close_price := 102.5%float; close_timestamp := 43;
     profit := pr; symbol := "AAPL"; std_dev := 0.25%float;
     open_datetime := {| year := 2020; month := 1; day := 2;
                         hour := h; minute := 30; second := 15 |};
     close_datetime := {| year := 2020; month := 1; day := 2;
                          hour := h + 1; minute := 45; second := 0 |} |}.

Definition same_day_other_fields : list (EnrichedPosition float) :=
  [other_fields 10%float 12; other_fields (-4)%float 14].

(** A stand-in for the conversion of [_utc_ts_to_et_dt] on concrete
    data: seconds counted from the start of January 2020, for timestamps
    within that month. *)
Definition january_2020 (ts : Z) : datetime :=
  {| year := 2020; month := 1; day := 1 + ts / 86400;
     hour := ts mod 86400 / 3600; minute := ts mod 3600 / 60;
     second := ts mod 60 |}.

Definition raw (open_ts close_ts : Z) (pr : float) : Raw.Position float :=
  {| Raw.open_bsi := 0%float; Raw.open_price := 100%float;
     Raw.open_timestamp := open_ts;
     Raw.close_bsi := 0%float; Raw.close_price := 101%float;
     Raw.close_timestamp := close_ts; Raw.profit := pr |}.

(** Two batches whose positions interleave in time. *)
Definition two_batches : list (Raw.Result float) :=
  [ {| Raw.symbol := "AAPL"; Raw.std_dev := 0.5%float;
       Raw.positions := [raw 200000 203600 10%float;
                         raw 90000 93600 (-4)%float] |};
    {| Raw.symbol := "MSFT"; Raw.std_dev := 0.25%float;
       Raw.positions := [raw 100000 100060 2%float] |} ].

End MoreInputs.

(** ** The monthly profit aggregator *)

Section MonthlyProfits.

Context {F : Type} `{PyFloat F}.

Abbreviation position := (EnrichedPosition F).
Implicit Types (p q : position) (l r : list position)
  (rs : list (list position)).

Lemma month_runs_cons p l :
  exists r rs, month_runs (p :: l) = (p :: r) :: rs.
Proof.
  cbn. destruct (month_runs l) as [|r rs]; [by exists [], [] |].
  destruct (starts_in (open_month p) r); eauto.
Qed.

Lemma run_totals_cons p l :
  map run_total (month_runs (p :: l))
  = absorb (open_month p) (profit p) (month_runs l).
Proof.
  cbn. destruct (month_runs l) as [|r rs]; [done |].
  cbn. by destruct (starts_in (open_month p) r).
Qed.

Lemma monthly_loop l : forall results m c,
  finish (fold_left monthly_step l (results, m, c))
  = results ++ absorb m c (month_runs l).
Proof.
  induction l as [|p l IH]; intros results m c; [done |].
  cbn [fold_left]. unfold monthly_step at 2. fold (open_month p).
  destruct (open_month p =? m) eqn:Hm; cbn [negb].
  - apply Z.eqb_eq in Hm. subst m. rewrite IH. f_equal. cbn [month_runs].
    destruct (month_runs l) as [|r rs]; cbn [absorb starts_in].
    + by rewrite Z.eqb_refl.
    + destruct (starts_in (open_month p) r) eqn:Hs;
        cbn [absorb starts_in]; by rewrite Z.eqb_refl.
  - rewrite IH, <- app_assoc. f_equal. cbn [app]. f_equal.
    rewrite <- run_totals_cons.
    destruct (month_runs_cons p l) as (r & rs & ->).
    cbn [absorb starts_in]. by rewrite Hm.
Qed.

Lemma calc_monthly_profits_runs p l :
  _calc_monthly_profits (p :: l) = Ok (bucket_values (month_runs (p :: l))).
Proof.
  unfold _calc_monthly_profits.
  pose proof (monthly_loop (p :: l) [] (open_month p) zero) as Hloop.
  unfold open_month in Hloop at 1.
  destruct (fold_left monthly_step (p :: l) _) as [[results m] c].
  cbn [finish] in Hloop. rewrite Hloop. cbn [app]. f_equal.
  destruct (month_runs_cons p l) as (r & rs & ->).
  cbn [absorb starts_in bucket_values]. by rewrite Z.eqb_refl.
Qed.

(** *** The runs are the maximal same-month segments of the input *)

Lemma month_runs_concat l : concat (month_runs l) = l.
Proof.
  induction l as [|p l IH]; [done |]. cbn.
  destruct (month_runs l) as [|r rs]; cbn in *; [by rewrite <- IH |].
  destruct (starts_in (open_month p) r); cbn; by rewrite <- IH.
Qed.

Lemma starts_in_true m r :
  starts_in m r = true -> exists q r', r = q :: r' /\ open_month q = m.
Proof.
  destruct r as [|q r']; cbn; [done |].
  intros ?%Z.eqb_eq. eauto.
Qed.

Lemma month_runs_same_month l : Forall same_month_run (month_runs l).
Proof.
  induction l as [|p l IH]; [constructor |]. cbn.
  assert (same_month_run [p]) as Hone.
  { split; [done |]. by intros ? ? ->%list_elem_of_singleton
                                    ->%list_elem_of_singleton. }
  destruct (month_runs l) as [|r rs]; [by apply Forall_singleton |].
  destruct (starts_in (open_month p) r) eqn:Hs; [| by constructor].
  apply Forall_cons in IH as [[_ Hr] Hrs]. constructor; [| done].
  apply starts_in_true in Hs as (q & r' & -> & Hq).
  split; [done |].
  assert (forall x, x ∈ p :: q :: r' -> open_month x = open_month p) as Hp.
  { intros x [-> | Hx]%elem_of_cons; [done |].
    rewrite <- Hq. apply Hr; [done | left]. }
  intros x y Hx Hy. by rewrite (Hp x Hx), (Hp y Hy).
Qed.

Lemma month_runs_boundary l : forall rs1 r1 r2 rs2 p q,
  month_runs l = rs1 ++ r1 :: r2 :: rs2 ->
  last r1 = Some p -> head r2 = Some q -> open_month p <> open_month q.
Proof.
  induction l as [|x l IH]; intros rs1 r1 r2 rs2 p q Hruns Hp Hq.
  { by destruct rs1. }
  cbn in Hruns. destruct (month_runs l) as [|r rs] eqn:Hl.
  { by destruct rs1 as [|? [|? ?]]. }
  destruct (starts_in (open_month x) r) eqn:Hs.
  - destruct rs1 as [|r0 rs1]; cbn in Hruns; simplify_eq.
    + apply starts_in_true in Hs as (y & r' & -> & _).
      eapply (IH []); [done | | done]. by rewrite last_cons_cons in Hp.
    + eapply (IH (r :: rs1)); done.
  - destruct rs1 as [|r0 rs1]; cbn in Hruns; simplify_eq.
    + cbn in Hp. simplify_eq. destruct r2 as [|y r2]; simplify_eq.
      cbn in Hs. apply Z.eqb_neq in Hs. cbn in Hq. simplify_eq. congruence.
    + eapply IH; done.
Qed.

(** Two neighbours with the same month number end up in one run. *)
Lemma month_runs_neighbours l1 : forall p q l2,
  open_month p = open_month q ->
  exists rs1 r1 r2 rs2,
    month_runs (l1 ++ p :: q :: l2) = rs1 ++ (r1 ++ p :: q :: r2) :: rs2
    /\ concat rs1 ++ r1 = l1.
Proof.
  induction l1 as [|x l1 IH]; intros p q l2 Hpq.
  - destruct (month_runs_cons q l2) as (r & rs & Hq).
    exists [], [], r, rs. split; [| done].
    cbn [app month_runs]. cbn [month_runs] in Hq. rewrite Hq.
    cbn [starts_in]. by rewrite (proj2 (Z.eqb_eq _ _) (eq_sym Hpq)).
  - destruct (IH p q l2 Hpq) as (rs1 & r1 & r2 & rs2 & Hruns & Hcat).
    cbn [app month_runs]. rewrite Hruns.
    destruct rs1 as [|r0 rs1]; cbn [app].
    + destruct (starts_in (open_month x) (r1 ++ p :: q :: r2)).
      * exists [], (x :: r1), r2, rs2. split; [done |].
        cbn in *. by rewrite Hcat.
      * exists [[x]], r1, r2, rs2. split; [done |].
        cbn in *. by rewrite Hcat.
    + destruct (starts_in (open_month x) r0).
      * exists ((x :: r0) :: rs1), r1, r2, rs2. split; [done |].
        cbn in *. by rewrite <- Hcat.
      * exists ([x] :: r0 :: rs1), r1, r2, rs2. split; [done |].
        cbn in *. by rewrite <- Hcat.
Qed.

End MonthlyProfits.

(** ** The symbol rollup *)

Lemma traded_days_step (k : Z * Z * Z) (X D : gset (Z * Z * Z)) :
  X ∪ ({[k]} ∪ D) = {[k]} ∪ X ∪ D.
Proof. by rewrite (assoc_L (∪)), (comm_L (∪) X). Qed.

Section SymbolRollup.

Context {F : Type} `{PyFloat F}.

Abbreviation position := (EnrichedPosition F).
Implicit Types (p : position) (l : list position) (s : string).

Lemma sum_values_insert (m : gmap string Z) s (v : Z) :
  sum_values (<[s := v]> m) = v + sum_values (delete s m).
Proof.
  unfold sum_values. rewrite <- insert_delete_eq.
  rewrite map_fold_insert_L; [done | intros; lia | apply lookup_delete_eq].
Qed.

Lemma sum_values_lookup (m : gmap string Z) s :
  sum_values m = default 0 (m !! s) + sum_values (delete s m).
Proof.
  destruct (m !! s) as [v|] eqn:Hs; cbn.
  - rewrite <- (insert_id m s v Hs) at 1. apply sum_values_insert.
  - by rewrite delete_id.
Qed.

Lemma len_of_symbol_cons s p l :
  len (of_symbol s (p :: l))
  = (if decide (symbol p = s) then 1 else 0) + len (of_symbol s l).
Proof.
  unfold of_symbol, len. rewrite filter_cons.
  destruct (decide (symbol p = s)); cbn [length]; lia.
Qed.

(** The state of the loop at lines 66-75 after the positions [l]. *)
Lemma symbol_loop l : forall days (profits : gmap string F)
    (counts : gmap string Z),
  exists profits' counts',
    fold_left symbol_step l (days, profits, counts)
    = (list_to_set (map (fun p => day_key (open_datetime p)) l) ∪ days,
       profits', counts')
    /\ (forall s, counts' !! s =
          if len (of_symbol s l) =? 0 then counts !! s
          else Some (default 0 (counts !! s) + len (of_symbol s l)))
    /\ sum_values counts' = sum_values counts + len l.
Proof.
  induction l as [|p l IH]; intros days profits counts.
  - exists profits, counts. split_and!; [| done | unfold len; cbn; lia].
    cbn. do 2 f_equal. by rewrite (left_id_L ∅ (∪)).
  - cbn [fold_left]. unfold symbol_step at 2.
    edestruct IH as (profits' & counts' & -> & Hcounts & Hsum).
    exists profits', counts'. split_and!.
    + do 2 f_equal. apply traded_days_step.
    + intros s. rewrite Hcounts, len_of_symbol_cons.
      assert (0 <= len (of_symbol s l)) by (unfold len; lia).
      destruct (decide (symbol p = s)) as [-> | Hne].
      * rewrite lookup_insert_eq. cbn [default].
        destruct (Z.eqb_spec (len (of_symbol s l)) 0);
          destruct (Z.eqb_spec (1 + len (of_symbol s l)) 0);
          try lia; cbn [default]; unfold Datatypes.id; f_equal; lia.
      * rewrite lookup_insert_ne by done. done.
    + rewrite Hsum, sum_values_insert.
      rewrite (sum_values_lookup counts (symbol p)).
      unfold len. cbn [length]. lia.
Qed.

Lemma traded_days_zero l : traded_days l = 0 <-> l = [].
Proof.
  unfold traded_days. split; [| by intros ->].
  destruct l as [|p l]; [done |]. intros Hsize.
  assert (size (list_to_set (map (fun p0 => day_key (open_datetime p0))
                                 (p :: l)) : gset (Z * Z * Z)) = 0%nat)
    as Hz by lia.
  apply size_empty_inv in Hz. set_solver.
Qed.

(** [_generate_symbol_data] returns for every input, and its three
    dictionaries are determined by the positions of each symbol and the
    number of distinct days of the whole input. *)
Lemma generate_symbol_data_spec l :
  exists sd,
    _generate_symbol_data l = Ok sd
    /\ (forall s, symbol_to_exec_n sd !! s =
          if len (of_symbol s l) =? 0 then None
          else Some (len (of_symbol s l)))
    /\ (forall s, symbol_to_exec_avg_n sd !! s =
          if len (of_symbol s l) =? 0 then None
          else Some (div (of_int (len (of_symbol s l)))
                         (of_int (traded_days l))))
    /\ sum_values (symbol_to_exec_n sd) = len l.
Proof.
  unfold _generate_symbol_data.
  destruct (symbol_loop l ∅ ∅ ∅) as (profits & counts & -> & Hcounts & Hsum).
  assert (forall s, counts !! s =
            if len (of_symbol s l) =? 0 then None
            else Some (len (of_symbol s l))) as Hcounts'.
  { intros s. rewrite Hcounts, lookup_empty. cbn.
    by destruct (len (of_symbol s l) =? 0). }
  assert (list_to_set (map (fun p => day_key (open_datetime p)) l)
            ∪ (∅ : gset (Z * Z * Z))
          = list_to_set (map (fun p => day_key (open_datetime p)) l))
    as -> by apply (right_id_L ∅ (∪)).
  fold (traded_days l).
  assert (sum_values counts = len l) as Hsum'.
  { rewrite Hsum. unfold sum_values. by rewrite map_fold_empty. }
  case_bool_decide as Hempty.
  - eexists. split; [done |]. cbn. split_and!; [done | | done].
    intros s. specialize (Hcounts' s). rewrite Hempty, lookup_empty in Hcounts'.
    rewrite lookup_empty. by destruct (len (of_symbol s l) =? 0).
  - destruct (Z.eqb_spec (traded_days l) 0) as [Hz | Hnz].
    + apply traded_days_zero in Hz. subst l.
      destruct Hempty. apply map_eq. intros s.
      by rewrite Hcounts', lookup_empty.
    + eexists. split; [done |]. cbn. split_and!; [done | | done].
      intros s. rewrite lookup_fmap, Hcounts'.
      by destruct (len (of_symbol s l) =? 0).
Qed.

End SymbolRollup.

(** ** The win/loss classifier *)

Section Classifier.

Context {F : Type} `{PyFloat F}.

Abbreviation position := (EnrichedPosition F).
Implicit Types (p : position) (l : list position).

(** Two disjoint filters of one list. *)
Lemma disjoint_filters_length {A : Type} (P Q : A -> Prop)
    `{!forall x, Decision (P x)} `{!forall x, Decision (Q x)} (l : list A) :
  (forall x, P x -> Q x -> False) ->
  (length (filter P l) + length (filter Q l) <= length l)%nat
  /\ ((length (filter P l) + length (filter Q l) = length l)%nat
      <-> forall x, x ∈ l -> P x \/ Q x).
Proof.
  intros Hdisj. induction l as [|x l [IHle IHeq]].
  - split; [done |]. split; [| done]. by intros _ x ?%elem_of_nil.
  - rewrite !filter_cons.
    destruct (decide (P x)) as [HP | HP], (decide (Q x)) as [HQ | HQ];
      [by destruct (Hdisj x) | | |]; cbn [length].
    + split; [lia |]. split.
      * intros Hlen x' [-> | Hin]%elem_of_cons; [by left |].
        apply IHeq; [lia | done].
      * intros Hall. enough (length (filter P l) + length (filter Q l)
                             = length l)%nat by lia.
        apply IHeq. intros x' Hin. apply Hall. by right.
    + split; [lia |]. split.
      * intros Hlen x' [-> | Hin]%elem_of_cons; [by right |].
        apply IHeq; [lia | done].
      * intros Hall. enough (length (filter P l) + length (filter Q l)
                             = length l)%nat by lia.
        apply IHeq. intros x' Hin. apply Hall. by right.
    + split; [lia |]. split; [lia |].
      intros Hall. destruct (Hall x); [left | |]; done.
Qed.

Lemma winning_losing_disjoint p :
  ltb zero (profit p) = true -> ltb (profit p) zero = true -> False.
Proof. intros Hw Hl. apply ltb_zero_asym in Hw. congruence. Qed.

(** A profit is strictly positive or strictly negative exactly when it
    is neither [0.0] nor a NaN. *)
Lemma signed_iff_nonzero_number (x : F) :
  ltb zero x = true \/ ltb x zero = true
  <-> eqb x zero = false /\ eqb x x = true.
Proof.
  split.
  - intros Hsigned.
    destruct (eqb x zero) eqn:Hz.
    { apply eqb_zero_not_ltb in Hz as [? ?]. destruct Hsigned; congruence. }
    destruct (eqb x x) eqn:Hn; [done |].
    apply nan_not_ltb in Hn as [? ?]. destruct Hsigned; congruence.
  - intros [Hz Hn].
    destruct (ltb zero x) eqn:Hpos; [by left |].
    destruct (ltb x zero) eqn:Hneg; [by right |].
    destruct (not_ltb_zero_or_nan x Hpos Hneg); congruence.
Qed.

Lemma calc_winning_trades_eq l :
  calc_winning_trades l =
  if len (winning l) =? 0 then Raise ZeroDivisionError
  else Ok {| total_won := py_sum (map profit (winning l));
             won_n := len (winning l);
             average_win := div (py_sum (map profit (winning l)))
                                (of_int (len (winning l))) |}.
Proof.
  unfold calc_winning_trades, float_truediv_int.
  by destruct (len (winning l) =? 0).
Qed.

Lemma calc_losing_trades_eq l :
  calc_losing_trades l =
  if len (losing l) =? 0 then Raise ZeroDivisionError
  else Ok {| total_lost := py_sum (map profit (losing l));
             lost_n := len (losing l);
             average_loss := div (py_sum (map profit (losing l)))
                                 (of_int (len (losing l))) |}.
Proof.
  unfold calc_losing_trades, float_truediv_int.
  by destruct (len (losing l) =? 0).
Qed.

Lemma len_zero {A : Type} (l : list A) : len l = 0 <-> l = [].
Proof. unfold len. destruct l; cbn; split; (done || lia). Qed.

End Classifier.

(** ** The Sharpe ratio block *)

Section Sharpe.

Context {F : Type} `{PyFloat F}.

(** With [ddof = 0] numpy divides by [N]. *)
Lemma numpy_std_population (a : list F) : numpy_std 0 a = population_std a.
Proof.
  unfold numpy_std, population_std, squared_deviations, mean.
  rewrite map_map, Z.sub_0_r, Z.max_l by (unfold len; lia). done.
Qed.

(** With [ddof = 1] it would divide by [N - 1]. *)
Lemma numpy_std_sample (a : list F) :
  a <> [] -> numpy_std 1 a = sample_std a.
Proof.
  intros Ha. unfold numpy_std, sample_std, squared_deviations, mean.
  rewrite map_map, Z.max_l; [done |].
  destruct a; [done |]. unfold len. cbn [length]. lia.
Qed.

Lemma calc_sharpe_ratio_eq (b : F) (monthly_profits : list F) :
  let e := excess TREASURY_MONTHLY_YIELD (b :: monthly_profits) in
  calc_sharpe_ratio (b :: monthly_profits) =
  Ok {| us10y_monthly_yield := TREASURY_MONTHLY_YIELD;
        excess_average := mean e;
        excess_std_dev := population_std e;
        sharpe_ratio_value := div (mean e) (population_std e) |}.
Proof.
  intros e. unfold calc_sharpe_ratio, float_truediv_int.
  fold (excess TREASURY_MONTHLY_YIELD (b :: monthly_profits)). fold e.
  rewrite numpy_std_population.
  destruct (Z.eqb_spec (len e) 0) as [Hz | _]; [| done].
  unfold e, excess, len in Hz. cbn in Hz. lia.
Qed.

End Sharpe.

(** ** The report assembler *)

Section Report.

Context {F : Type} `{PyFloat F}.

Abbreviation position := (EnrichedPosition F).
Implicit Types (p : position) (l : list position) (a : Analysis F).

Lemma last_item_cons {A : Type} (x : A) (xs : list A) :
  exists y, last_item (x :: xs) = Ok y.
Proof.
  unfold last_item. destruct (last (x :: xs)) as [y|] eqn:Hlast; [eauto |].
  by apply last_None in Hlast.
Qed.

(** [_generate_analysis] either raises [ZeroDivisionError] or returns a
    report, and [analysis_defined] tells which. *)
Lemma generate_analysis_cases l :
  (analysis_defined l = false
   /\ _generate_analysis l = Raise ZeroDivisionError)
  \/ (analysis_defined l = true
      /\ exists a monthly_profits sd,
           _generate_analysis l = Ok a /\ assembled l a monthly_profits sd).
Proof.
  unfold analysis_defined, _generate_analysis, assembled.
  unfold int_truediv_int, int_truediv_float.
  destruct (Z.eqb_spec (traded_days l) 0) as [Hd | Hd].
  { apply traded_days_zero in Hd. subst l. left. by cbn. }
  cbn [mbind result_bind].
  destruct (eqb (div (of_int (len l * 2)) (of_int (traded_days l))) zero).
  { left. split; [| done]. by rewrite andb_false_r. }
  cbn [mbind result_bind]. rewrite calc_winning_trades_eq.
  destruct (len (winning l) =? 0); [by left |].
  cbn [mbind result_bind]. rewrite calc_losing_trades_eq.
  destruct (len (losing l) =? 0); [by left |].
  cbn [mbind result_bind]. right. split; [done |].
  destruct l as [|p l]; [by rewrite (proj2 (traded_days_zero [])) in Hd |].
  rewrite calc_monthly_profits_runs.
  destruct (month_runs_cons p l) as (r & rs & ->).
  cbn [bucket_values mbind result_bind]. rewrite calc_sharpe_ratio_eq.
  cbn [mbind result_bind first_item].
  destruct (last_item_cons p l) as (final & ->).
  destruct (generate_symbol_data_spec (p :: l)) as (sd & -> & _).
  cbn [mbind result_bind]. eexists _, _, sd. split; [done |].
  split_and!; try done. apply calc_sharpe_ratio_eq.
Qed.

Lemma generate_analysis_undefined l :
  analysis_defined l = false ->
  _generate_analysis l = Raise ZeroDivisionError.
Proof.
  intros Hu. destruct (generate_analysis_cases l) as [[_ ?] | [? _]];
    [done | congruence].
Qed.

Lemma generate_analysis_defined l :
  analysis_defined l = true ->
  exists a monthly_profits sd,
    _generate_analysis l = Ok a /\ assembled l a monthly_profits sd.
Proof.
  intros Hd. destruct (generate_analysis_cases l) as [[? _] | [_ ?]];
    [congruence | done].
Qed.

Lemma generate_analysis_Ok l a :
  _generate_analysis l = Ok a ->
  analysis_defined l = true
  /\ exists monthly_profits sd, assembled l a monthly_profits sd.
Proof.
  intros Ha. destruct (generate_analysis_cases l)
    as [[_ ?] | [? (a' & mp & sd & Ha' & ?)]]; [congruence |].
  split; [done |]. exists mp, sd. congruence.
Qed.

(** No input makes the program raise one of the three errors of the
    specification, nor [IndexError]. *)
Lemma generate_analysis_raises l e :
  _generate_analysis l = Raise e -> e = ZeroDivisionError.
Proof.
  intros He. destruct (generate_analysis_cases l)
    as [[_ ?] | [_ (a & _ & _ & ? & _)]]; congruence.
Qed.

End Report.

(** ** Conservation of profit under exact addition *)

Section Conservation.

Context {F : Type} `{PyFloat F}.
Hypothesis add_assoc : Assoc (=) add.
Hypothesis add_zero_l : LeftId (=) zero add.

Abbreviation position := (EnrichedPosition F).

Lemma fold_add_shift (xs : list F) : forall a x,
  fold_left add xs (add a x) = add a (fold_left add xs x).
Proof.
  induction xs as [|y xs IH]; intros a x; [done |].
  cbn. by rewrite <- (assoc add), IH.
Qed.

Lemma py_sum_run_total (r : list position) :
  r <> [] -> py_sum (map profit r) = run_total r.
Proof.
  destruct r as [|p r]; [done |]. intros _.
  unfold py_sum. cbn. by rewrite (left_id zero add).
Qed.

Lemma fold_run_totals (rs : list (list position)) : forall a,
  Forall (fun r => r <> []) rs ->
  fold_left add (map run_total rs) a
  = fold_left add (map profit (concat rs)) a.
Proof.
  induction rs as [|r rs IH]; intros a Hne; [done |].
  apply Forall_cons in Hne as [Hr Hrs]. destruct r as [|p r]; [done |].
  cbn. rewrite map_app, fold_left_app, (fold_add_shift (map profit r)).
  by apply IH.
Qed.

Lemma bucket_sum_conserved (l : list position) :
  py_sum (bucket_values (month_runs l)) = py_sum (map profit l).
Proof.
  pose proof (month_runs_same_month l) as Hruns.
  rewrite <- (month_runs_concat l) at 2.
  destruct (month_runs l) as [|r rs]; [done |].
  apply Forall_cons in Hruns as [[Hr _] Hrs].
  cbn [bucket_values]. rewrite py_sum_run_total by done.
  apply (fold_run_totals (r :: rs)). constructor; [done |].
  eapply Forall_impl; [exact Hrs |]. by intros ? [? _].
Qed.

End Conservation.

(** ** Properties of the statistics pipeline *)

Section Properties.

Context {F : Type} `{PyFloat F}.

Abbreviation position := (EnrichedPosition F).
Implicit Types (p q : position) (l : list position) (a : Analysis F).

(** C1, as amended.  When the bucketing yields exactly one bucket [b],
    report assembly never fails with [UndefinedRatioError]: it raises
    [ZeroDivisionError] when there is no winning or no losing position,
    and otherwise returns a report whose excess average and standard
    deviation are those of the one excess value [b - 0.12] and whose
    Sharpe ratio is their unguarded quotient. *)
Theorem single_bucket_sharpe_unguarded l (b : F) :
  _calc_monthly_profits l = Ok [b] ->
  _generate_analysis l <> Raise UndefinedRatioError
  /\ (analysis_defined l = false ->
      _generate_analysis l = Raise ZeroDivisionError)
  /\ (analysis_defined l = true ->
      exists a,
        _generate_analysis l = Ok a
        /\ excess_average (sharpe_ratio a)
           = mean [sub b TREASURY_MONTHLY_YIELD]
        /\ excess_std_dev (sharpe_ratio a)
           = population_std [sub b TREASURY_MONTHLY_YIELD]
        /\ sharpe_ratio_value (sharpe_ratio a)
           = div (excess_average (sharpe_ratio a))
                 (excess_std_dev (sharpe_ratio a))).
Proof.
  intros Hb. split_and!.
  - intros He. by apply generate_analysis_raises in He.
  - apply generate_analysis_undefined.
  - intros Hd.
    destruct (generate_analysis_defined l Hd)
      as (a & mp & sd & Ha & Hmp & _ & _ & _ & Hs & _).
    exists a. split; [done |].
    rewrite Hb in Hmp. injection Hmp as <-.
    rewrite calc_sharpe_ratio_eq in Hs. injection Hs as <-. done.
Qed.

(** C2, as amended.  On the empty sequence the monthly profit aggregator
    raises [IndexError] (line 38 reads [positions[0]]) and the report
    assembler raises [ZeroDivisionError] (line 108 divides by the number
    of traded days, 0). *)
Theorem empty_input_errors :
  _calc_monthly_profits (F := F) [] = Raise IndexError
  /\ _generate_analysis (F := F) [] = Raise ZeroDivisionError.
Proof. split; [done |]. by apply generate_analysis_undefined. Qed.

(** C3, as amended.  When there is no winning or no losing position, the
    average of the empty category divides by the count 0 and raises
    [ZeroDivisionError], and so does the report assembler. *)
Theorem empty_category_zero_division l :
  winning l = [] \/ losing l = [] ->
  _generate_analysis l = Raise ZeroDivisionError
  /\ (winning l = [] -> calc_winning_trades l = Raise ZeroDivisionError)
  /\ (losing l = [] -> calc_losing_trades l = Raise ZeroDivisionError).
Proof.
  intros Hempty. split_and!.
  - apply generate_analysis_undefined. unfold analysis_defined.
    destruct Hempty as [-> | ->]; [done |]. by rewrite andb_false_r.
  - intros Hw. by rewrite calc_winning_trades_eq, Hw.
  - intros Hl. by rewrite calc_losing_trades_eq, Hl.
Qed.

(** C4, as amended.  For every non-empty position sequence, sorted or
    not, the aggregator returns its buckets and the general profit of a
    returned report is their sum, computed by [sum]; that sum equals the
    sum of the individual profits in an arithmetic whose addition is
    associative with 0.0 neutral on the left, as the real numbers are and
    binary64 is not. *)
Theorem bucket_sum_conservation p l :
  exists buckets,
    _calc_monthly_profits (p :: l) = Ok buckets
    /\ (forall a, _generate_analysis (p :: l) = Ok a ->
                  general_profit (general a) = py_sum buckets)
    /\ (Assoc (=) add -> LeftId (=) zero add ->
        py_sum buckets = py_sum (map profit (p :: l))).
Proof.
  exists (bucket_values (month_runs (p :: l))). split_and!.
  - apply calc_monthly_profits_runs.
  - intros a (_ & mp & sd & Hmp & _ & _ & _ & _ & _ & Hprofit & _)
      %generate_analysis_Ok.
    rewrite calc_monthly_profits_runs in Hmp. injection Hmp as <-. done.
  - intros Hassoc Hid. by apply bucket_sum_conserved.
Qed.

(** C5.  For every non-empty position sequence, sorted or not, the
    aggregator returns one bucket per maximal contiguous run of positions
    with the same open month: the runs concatenate to the input, each run
    is non-empty and of one month, two consecutive runs differ in month
    where they meet (so a month seen again after another one opens a new
    bucket), and each bucket is the sum of the profits of its run, added
    left to right (the first run from the initial 0.0). *)
Theorem monthly_buckets_are_month_runs p l :
  _calc_monthly_profits (p :: l) = Ok (bucket_values (month_runs (p :: l)))
  /\ length (bucket_values (month_runs (p :: l)))
     = length (month_runs (p :: l))
  /\ concat (month_runs (p :: l)) = p :: l
  /\ Forall same_month_run (month_runs (p :: l))
  /\ (forall rs1 r1 r2 rs2 x y,
        month_runs (p :: l) = rs1 ++ r1 :: r2 :: rs2 ->
        last r1 = Some x -> head r2 = Some y ->
        open_month x <> open_month y).
Proof.
  split_and!.
  - apply calc_monthly_profits_runs.
  - destruct (month_runs (p :: l)); cbn; [done |]. by rewrite length_map.
  - apply month_runs_concat.
  - apply month_runs_same_month.
  - apply month_runs_boundary.
Qed.


(** C7, as amended.  A position is in the winning category iff its
    profit is strictly greater than 0.0 and in the losing category iff
    it is strictly less than 0.0; a position with profit 0.0 is in
    neither; no position is in both; the two counts add up to at most
    the number of positions, with equality iff no position has a profit
    that is 0.0 or NaN.  The counts and totals of the report are those
    of the two categories. *)
Theorem classifier_partition l :
  (forall p, p ∈ winning l <-> p ∈ l /\ ltb zero (profit p) = true)
  /\ (forall p, p ∈ losing l <-> p ∈ l /\ ltb (profit p) zero = true)
  /\ (forall p, eqb (profit p) zero = true ->
                (p ∉ winning l) /\ (p ∉ losing l))
  /\ (forall p, ~ (p ∈ winning l /\ p ∈ losing l))
  /\ len (winning l) + len (losing l) <= len l
  /\ (len (winning l) + len (losing l) = len l
      <-> forall p, p ∈ l -> (eqb (profit p) zero = false
                              /\ eqb (profit p) (profit p) = true))
  /\ (forall w, calc_winning_trades l = Ok w ->
        won_n w = len (winning l)
        /\ total_won w = py_sum (map profit (winning l)))
  /\ (forall w, calc_losing_trades l = Ok w ->
        lost_n w = len (losing l)
        /\ total_lost w = py_sum (map profit (losing l))).
Proof.
  destruct (disjoint_filters_length
              (fun p => ltb zero (profit p) = true)
              (fun p => ltb (profit p) zero = true) l
              winning_losing_disjoint) as [Hle Heq].
  fold (winning l) in Hle, Heq. fold (losing l) in Hle, Heq.
  split_and!.
  - intros p. unfold winning. rewrite list_elem_of_filter. tauto.
  - intros p. unfold losing. rewrite list_elem_of_filter. tauto.
  - intros p [Hw Hl]%eqb_zero_not_ltb. unfold winning, losing.
    rewrite !list_elem_of_filter. split; intros [? _]; congruence.
  - intros p. unfold winning, losing. rewrite !list_elem_of_filter.
    intros [[Hw _] [Hl _]]. by apply (winning_losing_disjoint p).
  - unfold len. lia.
  - unfold len. rewrite <- Nat2Z.inj_add, Nat2Z.inj_iff, Heq.
    split; intros Hall p Hp; apply signed_iff_nonzero_number; by apply Hall.
  - intros w. rewrite calc_winning_trades_eq.
    destruct (len (winning l) =? 0); [done |]. by intros [= <-].
  - intros w. rewrite calc_losing_trades_eq.
    destruct (len (losing l) =? 0); [done |]. by intros [= <-].
Qed.

(** C8.  The symbol rollup returns for every input, and for each symbol
    its average number of executions per day is the number of positions
    of that symbol divided by the number of distinct (day, month, year)
    open days of all positions, the same divisor for every symbol.  The
    report carries this rollup. *)
Theorem avg_exec_per_day_overall_days l :
  exists sd,
    _generate_symbol_data l = Ok sd
    /\ (forall s, symbol_to_exec_avg_n sd !! s =
          if len (of_symbol s l) =? 0 then None
          else Some (div (of_int (len (of_symbol s l)))
                         (of_int (traded_days l))))
    /\ (forall a, _generate_analysis l = Ok a -> symbol_data a = sd).
Proof.
  destruct (generate_symbol_data_spec l) as (sd & Hsd & _ & Havg & _).
  exists sd. split_and!; [done | done |].
  intros a (_ & mp & sd' & _ & Hsd' & _ & _ & _ & -> & _)
    %generate_analysis_Ok.
  congruence.
Qed.

(** C9.  The per-symbol execution count is the number of positions of
    the symbol, so the counts of all symbols add up to the number of
    positions; the general execution count of a returned report is twice
    the number of positions, hence twice that sum; and a report is
    returned whenever [analysis_defined] holds. *)
Theorem exec_counts l :
  (exists sd,
     _generate_symbol_data l = Ok sd
     /\ (forall s, symbol_to_exec_n sd !! s =
           if len (of_symbol s l) =? 0 then None
           else Some (len (of_symbol s l)))
     /\ sum_values (symbol_to_exec_n sd) = len l)
  /\ (forall a, _generate_analysis l = Ok a ->
        exec_n (general a) = 2 * len l
        /\ 2 * sum_values (symbol_to_exec_n (symbol_data a))
           = exec_n (general a))
  /\ (analysis_defined l = true -> exists a, _generate_analysis l = Ok a).
Proof.
  destruct (generate_symbol_data_spec l) as (sd & Hsd & Hn & _ & Hsum).
  split_and!.
  - by exists sd.
  - intros a (_ & mp & sd' & _ & Hsd' & _ & _ & _ & -> & _ & -> & _)
      %generate_analysis_Ok.
    assert (sd' = sd) as -> by congruence. lia.
  - intros (a & _ & _ & Ha & _)%generate_analysis_defined. by exists a.
Qed.

(** C10.  The aggregator compares month numbers only.  When a position
    [p] is immediately followed by a position [q] of the same month
    number in another year, the loop, in whatever state it reaches [q],
    takes the accumulating branch: the finished buckets and the running
    month stay and the profit of [q] is added to the running bucket.  So
    [p] and [q] lie in one run, and the buckets are those of the runs. *)
Theorem same_month_other_year_same_bucket l1 p q l2 :
  open_month p = open_month q ->
  year (open_datetime p) <> year (open_datetime q) ->
  (forall st,
     let st1 := monthly_step (fold_left monthly_step l1 st) p in
     monthly_step st1 q = (st1.1.1, st1.1.2, add st1.2 (profit q)))
  /\ exists rs1 r1 r2 rs2,
       concat rs1 ++ r1 = l1
       /\ month_runs (l1 ++ p :: q :: l2)
          = rs1 ++ (r1 ++ p :: q :: r2) :: rs2
       /\ _calc_monthly_profits (l1 ++ p :: q :: l2)
          = Ok (bucket_values (rs1 ++ (r1 ++ p :: q :: r2) :: rs2)).
Proof.
  intros Hmonth _. split.
  - intros st st1.
    assert (st1.1.2 = open_month p) as Hm1.
    { unfold st1. destruct (fold_left monthly_step l1 st) as [[results m] c].
      unfold monthly_step. fold (open_month p).
      destruct (Z.eqb_spec (open_month p) m); by cbn. }
    destruct st1 as [[results1 m1] c1]. cbn in Hm1. subst m1.
    unfold monthly_step. fold (open_month q).
    by rewrite <- Hmonth, Z.eqb_refl.
  - destruct (month_runs_neighbours l1 p q l2 Hmonth)
      as (rs1 & r1 & r2 & rs2 & Hruns & Hcat).
    exists rs1, r1, r2, rs2. split_and!; [done | done |].
    rewrite <- Hruns. destruct l1 as [|x l1]; apply calc_monthly_profits_runs.
Qed.

End Properties.

(** ** The program on concrete inputs *)

(** Two floats with different representations are different. *)
Lemma float_neq (x y : float) : Prim2SF x <> Prim2SF y -> x <> y.
Proof. intros Hne ->. by apply Hne. Qed.

(** The inputs of this section meet the precondition of the report
    assembler. *)
Example inputs_sorted :
  sorted_by_open_time Inputs.same_day = true
  /\ sorted_by_open_time Inputs.one_winner = true
  /\ sorted_by_open_time Inputs.large_then_small = true
  /\ sorted_by_open_time Inputs.with_nan = true
  /\ sorted_by_open_time Inputs.january_twice = true
  /\ sorted_by_open_time Inputs.month_resumed = true
  /\ sorted_by_open_time Inputs.two_symbols = true.
Proof. vm_compute. split_and!; reflexivity. Qed.

(** The literal 0.12 is the float nearest to 12/100. *)
Example treasury_monthly_yield_binary64 :
  TREASURY_MONTHLY_YIELD (F := float) = 0x1.eb851eb851eb8p-4%float.
Proof. vm_compute. reflexivity. Qed.

(** The end-to-end scenario of the specification, up to the Sharpe block. *)
Example same_day_report :
  exists a,
    _generate_analysis Inputs.same_day = Ok a
    /\ general_profit (general a) = 6%float
    /\ exec_n (general a) = 4
    /\ winning_trades a
       = {| total_won := 10%float; won_n := 1; average_win := 10%float |}
    /\ losing_trades a
       = {| total_lost := (-4)%float; lost_n := 1;
            average_loss := (-4)%float |}
    /\ symbol_to_profit (symbol_data a) !! "AAPL" = Some 6%float
    /\ symbol_to_exec_n (symbol_data a) !! "AAPL" = Some 2.
Proof. vm_compute. eexists. split_and!; reflexivity. Qed.

(** A month seen again after another month opens a new bucket. *)
Example month_resumed_buckets :
  _calc_monthly_profits Inputs.month_resumed
  = Ok [4%float; (-2)%float; 4%float].
Proof. vm_compute. reflexivity. Qed.

(** With symbol A on one day and symbol B on another, A's average is 1/2:
    the divisor is the 2 days of the whole input, not the 1 day on which A
    traded. *)
Example two_symbols_average :
  (exists sd,
     _generate_symbol_data Inputs.two_symbols = Ok sd
     /\ symbol_to_exec_avg_n sd !! "A" = Some 0.5%float)
  /\ traded_days Inputs.two_symbols = 2
  /\ traded_days (of_symbol "A" Inputs.two_symbols) = 1.
Proof. vm_compute. split_and!; [eexists; split |..]; reflexivity. Qed.

(** On the excess values 1.0 and 3.0 the population standard deviation is
    1.0; the sample standard deviation would be the square root of 2. *)
Example population_not_sample :
  numpy_std 0 [1%float; 3%float] = 1%float
  /\ numpy_std 1 [1%float; 3%float] = PrimFloat.sqrt 2%float.
Proof. vm_compute. split; reflexivity. Qed.

(** Three buckets equal to the risk-free rate: the standard deviation is 0
    and the ratio is NaN; no error is raised. *)
Example sharpe_of_equal_buckets :
  exists s,
    calc_sharpe_ratio [lit 0.12%Q; lit 0.12%Q; lit 0.12%Q] = Ok s
    /\ excess_std_dev s = 0%float
    /\ sharpe_ratio_value s = nan.
Proof. vm_compute. eexists. split_and!; reflexivity. Qed.

(** C1, counterexample.  Two positions of one day, profits +10.0 and -4.0,
    make one bucket; the report is returned, with standard deviation 0 and
    an infinite Sharpe ratio. *)
Lemma single_bucket_returns_infinity :
  _calc_monthly_profits Inputs.same_day = Ok [6%float]
  /\ _generate_analysis Inputs.same_day <> Raise UndefinedRatioError
  /\ exists a,
       _generate_analysis Inputs.same_day = Ok a
       /\ excess_std_dev (sharpe_ratio a) = 0%float
       /\ sharpe_ratio_value (sharpe_ratio a) = infinity.
Proof.
  split_and!; [vm_compute; reflexivity | vm_compute; discriminate |].
  vm_compute. eexists. split_and!; reflexivity.
Qed.

(** The one-bucket theorem applies to that input. *)
Lemma single_bucket_sharpe_unguarded_witness :
  _calc_monthly_profits Inputs.same_day = Ok [6%float]
  /\ analysis_defined Inputs.same_day = true
  /\ _generate_analysis Inputs.same_day <> Raise UndefinedRatioError.
Proof.
  split; [vm_compute; reflexivity |]. split; [vm_compute; reflexivity |].
  apply (single_bucket_sharpe_unguarded Inputs.same_day 6%float).
  vm_compute. reflexivity.
Defined.

(** C2, counterexample.  On the empty sequence neither function raises
    [EmptyInputError]. *)
Lemma empty_input_not_EmptyInputError :
  _calc_monthly_profits (F := float) [] <> Raise EmptyInputError
  /\ _generate_analysis (F := float) [] <> Raise EmptyInputError.
Proof. split; vm_compute; discriminate. Qed.

(** C3, counterexample.  With one winning position and no losing one the
    failure is a [ZeroDivisionError], not a [NoTradesInCategoryError]. *)
Lemma empty_category_not_NoTradesInCategoryError :
  losing Inputs.one_winner = []
  /\ calc_losing_trades Inputs.one_winner = Raise ZeroDivisionError
  /\ _generate_analysis Inputs.one_winner = Raise ZeroDivisionError
  /\ _generate_analysis Inputs.one_winner <> Raise NoTradesInCategoryError.
Proof. split_and!; vm_compute; (reflexivity || discriminate). Qed.

(** The empty-category theorem applies to that input. *)
Lemma empty_category_zero_division_witness :
  (winning Inputs.one_winner = [] \/ losing Inputs.one_winner = [])
  /\ _generate_analysis Inputs.one_winner = Raise ZeroDivisionError.
Proof.
  split; [right; vm_compute; reflexivity |].
  apply (empty_category_zero_division Inputs.one_winner).
  right. vm_compute. reflexivity.
Defined.

(** C4, counterexample.  January holds 1e16, 1.0, 1.0 and February 3.0,
    -1.0, in ascending order of open time.  The buckets are 1e16 (each 1.0
    is rounded away) and 2.0; their sum, the general profit of the report,
    is 1e16 + 2; the profits sum to 1e16 + 4, exactly and in floating
    point alike. *)
Lemma bucket_sum_differs_from_profit_sum :
  sorted_by_open_time Inputs.large_then_small = true
  /\ _calc_monthly_profits Inputs.large_then_small
     = Ok [1e16%float; 2%float]
  /\ py_sum [1e16%float; 2%float] = 10000000000000002%float
  /\ py_sum (map profit Inputs.large_then_small) = 10000000000000004%float
  /\ py_sum [1e16%float; 2%float]
     <> py_sum (map profit Inputs.large_then_small)
  /\ exists a,
       _generate_analysis Inputs.large_then_small = Ok a
       /\ general_profit (general a) = 10000000000000002%float.
Proof.
  split_and!; try (vm_compute; reflexivity).
  - apply float_neq. vm_compute. discriminate.
  - vm_compute. eexists. split; reflexivity.
Qed.

(** Over the reals addition is associative with 0 neutral, and the sums
    agree. *)
Lemma bucket_sum_conservation_witness :
  exists buckets,
    _calc_monthly_profits Inputs.same_day_exact = Ok buckets
    /\ py_sum buckets = py_sum (map profit Inputs.same_day_exact).
Proof.
  destruct (bucket_sum_conservation
              (Inputs.at_day "AAPL" 2020 1 2 10%R)
              [Inputs.at_day "AAPL" 2020 1 2 (-4)%R])
    as (buckets & Hb & _ & Hsum).
  exists buckets. split; [exact Hb |]. apply Hsum.
  - intros x y z. symmetry. apply Rplus_assoc.
  - intros x. apply Rplus_0_l.
Defined.

(** C7, counterexample.  A winner, a loser and a position whose profit is
    NaN: no position has profit 0.0, yet the two counts add up to 2, not
    to 3. *)
Lemma nan_profit_breaks_equality :
  (forall p, p ∈ Inputs.with_nan -> eqb (profit p) zero = false)
  /\ len (winning Inputs.with_nan) + len (losing Inputs.with_nan) = 2
  /\ len Inputs.with_nan = 3
  /\ ~ (len (winning Inputs.with_nan) + len (losing Inputs.with_nan)
        = len Inputs.with_nan
        <-> forall p, p ∈ Inputs.with_nan -> eqb (profit p) zero = false).
Proof.
  assert (forall p, p ∈ Inputs.with_nan -> eqb (profit p) zero = false)
    as Hnonzero.
  { intros p Hp. unfold Inputs.with_nan in Hp.
    repeat (apply elem_of_cons in Hp as [-> | Hp]);
      [vm_compute; reflexivity .. | by apply elem_of_nil in Hp]. }
  split_and!; [done | vm_compute; reflexivity .. |].
  intros [_ Hiff]. specialize (Hiff Hnonzero). vm_compute in Hiff.
  discriminate.
Qed.

(** January 2020 followed by January 2021: same month number, another
    year. *)
Lemma same_month_other_year_same_bucket_witness :
  open_month Inputs.jan_2020 = open_month Inputs.jan_2021
  /\ year (open_datetime Inputs.jan_2020)
     <> year (open_datetime Inputs.jan_2021)
  /\ exists rs1 r1 r2 rs2,
       concat rs1 ++ r1 = []
       /\ month_runs ([] ++ Inputs.jan_2020 :: Inputs.jan_2021 :: [])
          = rs1 ++ (r1 ++ Inputs.jan_2020 :: Inputs.jan_2021 :: r2) :: rs2
       /\ _calc_monthly_profits ([] ++ Inputs.jan_2020 :: Inputs.jan_2021 :: [])
          = Ok (bucket_values
                  (rs1 ++ (r1 ++ Inputs.jan_2020 :: Inputs.jan_2021 :: r2)
                   :: rs2)).
Proof.
  split; [reflexivity |]. split; [vm_compute; discriminate |].
  apply (same_month_other_year_same_bucket
           [] Inputs.jan_2020 Inputs.jan_2021 []);
    [reflexivity | vm_compute; discriminate].
Defined.

(** January 2020 followed by January 2021 is one bucket. *)
Example january_twice_one_bucket :
  _calc_monthly_profits Inputs.january_twice = Ok [1%float].
Proof. vm_compute. reflexivity. Qed.

(** ** More on the monthly profit aggregator *)

Section MonthlyProfitsMore.

Context {F : Type} `{PyFloat F}.

Abbreviation position := (EnrichedPosition F).
Implicit Types (p q : position) (l r : list position).

Lemma month_runs_length p l :
  length (month_runs (p :: l)) = S (month_changes (p :: l)).
Proof.
  revert p. induction l as [|q l IH]; intros p; [done |].
  specialize (IH q). cbn [month_runs month_changes] in *.
  destruct (month_runs_cons q l) as (r & rs & Hq). cbn [month_runs] in Hq.
  rewrite Hq in *. cbn [starts_in]. rewrite (Z.eqb_sym (open_month q)).
  destruct (open_month p =? open_month q); cbn [length] in *; lia.
Qed.

Lemma month_changes_lt p l : (month_changes (p :: l) < length (p :: l))%nat.
Proof.
  revert p. induction l as [|q l IH]; intros p; [cbn; lia |].
  specialize (IH q). cbn [month_changes length] in *.
  destruct (open_month p =? open_month q); lia.
Qed.

Lemma one_month_one_run p l :
  Forall (fun q => open_month q = open_month p) l ->
  month_runs (p :: l) = [p :: l].
Proof.
  revert p. induction l as [|q l IH]; intros p Hall; [done |].
  apply Forall_cons in Hall as [Hq Hl].
  cbn [month_runs]. cbn [month_runs] in IH. rewrite IH.
  - cbn [starts_in]. by rewrite Hq, Z.eqb_refl.
  - eapply Forall_impl; [exact Hl |]. cbn. congruence.
Qed.

Lemma bucket_values_length (rs : list (list position)) :
  length (bucket_values rs) = length rs.
Proof. destruct rs; cbn; [done |]. by rewrite length_map. Qed.

Lemma bucket_values_app (rs1 rs2 : list (list position)) :
  rs1 <> [] ->
  bucket_values (rs1 ++ rs2) = bucket_values rs1 ++ map run_total rs2.
Proof. destruct rs1; [done |]. intros _. cbn. by rewrite map_app. Qed.

Lemma month_runs_snoc_nonempty l p : month_runs (l ++ [p]) <> [].
Proof.
  intros Hruns. pose proof (month_runs_concat (l ++ [p])) as Hcat.
  rewrite Hruns in Hcat. by destruct l.
Qed.

Lemma month_runs_app l1 : forall p q l2,
  open_month p <> open_month q ->
  month_runs (l1 ++ p :: q :: l2)
  = month_runs (l1 ++ [p]) ++ month_runs (q :: l2).
Proof.
  induction l1 as [|x l1 IH]; intros p q l2 Hne.
  - destruct (month_runs_cons q l2) as (r & rs & Hq).
    cbn [app month_runs]. cbn [month_runs] in Hq. rewrite Hq.
    cbn [starts_in]. by rewrite (proj2 (Z.eqb_neq _ _) (not_eq_sym Hne)).
  - cbn [app month_runs]. rewrite (IH p q l2 Hne).
    destruct (month_runs (l1 ++ [p])) as [|r0 rs0] eqn:Hruns.
    { by apply month_runs_snoc_nonempty in Hruns. }
    cbn [app]. by destruct (starts_in (open_month x) r0).
Qed.

(** X1.  [_calc_monthly_profits] raises, and then [IndexError], exactly
    on the empty list; on any other input it returns one bucket more than
    there are neighbouring positions with different month numbers, so at
    least one bucket and at most one per position. *)
Theorem monthly_profits_outcome l :
  match _calc_monthly_profits l with
  | Raise e => l = [] /\ e = IndexError
  | Ok buckets =>
      l <> []
      /\ length buckets = S (month_changes l)
      /\ (1 <= length buckets <= length l)%nat
  end.
Proof.
  destruct l as [|p l]; [done |].
  rewrite calc_monthly_profits_runs, bucket_values_length, month_runs_length.
  pose proof (month_changes_lt p l). split_and!; [done | done | lia | lia].
Qed.

(** X2.  The aggregator returns exactly one bucket iff every position has
    the open month number of the first one, and that bucket is then the
    [sum] of all the profits in input order. *)
Theorem single_bucket_iff_one_month p l :
  ((exists b, _calc_monthly_profits (p :: l) = Ok [b])
   <-> Forall (fun q => open_month q = open_month p) l)
  /\ (Forall (fun q => open_month q = open_month p) l ->
      _calc_monthly_profits (p :: l) = Ok [py_sum (map profit (p :: l))]).
Proof.
  assert (Forall (fun q => open_month q = open_month p) l ->
          _calc_monthly_profits (p :: l) = Ok [py_sum (map profit (p :: l))])
    as Hone.
  { intros Hall. by rewrite calc_monthly_profits_runs, one_month_one_run. }
  split; [| done]. split; [| by eauto].
  intros [b Hb]. rewrite calc_monthly_profits_runs in Hb.
  pose proof (month_runs_concat (p :: l)) as Hcat.
  pose proof (month_runs_same_month (p :: l)) as Hsame.
  remember (month_runs (p :: l)) as runs eqn:Hruns. clear Hruns.
  destruct runs as [|r [|? ?]]; [done | | by simplify_eq/=].
  cbn in Hcat. rewrite app_nil_r in Hcat. subst r.
  apply Forall_singleton in Hsame as [_ Hsame].
  apply Forall_forall. intros q Hq. apply Hsame; [by right | by left].
Qed.

(** X3.  Where two neighbouring positions differ in month number the
    bucketing splits: the buckets of the whole list are the buckets of the
    part up to the first of the two, followed by the run totals of the
    rest. *)
Theorem monthly_profits_split l1 p q l2 :
  open_month p <> open_month q ->
  exists buckets1,
    _calc_monthly_profits (l1 ++ [p]) = Ok buckets1
    /\ _calc_monthly_profits (l1 ++ p :: q :: l2)
       = Ok (buckets1 ++ map run_total (month_runs (q :: l2))).
Proof.
  intros Hne. exists (bucket_values (month_runs (l1 ++ [p]))).
  pose proof (month_runs_snoc_nonempty l1 p) as Hnonempty.
  split.
  - destruct l1; apply calc_monthly_profits_runs.
  - rewrite <- bucket_values_app, <- month_runs_app by done.
    destruct l1; apply calc_monthly_profits_runs.
Qed.

End MonthlyProfitsMore.

(** ** More on the symbol rollup *)

Section SymbolRollupMore.

Context {F : Type} `{PyFloat F}.

Abbreviation position := (EnrichedPosition F).
Implicit Types (p : position) (l : list position) (s : string).

Lemma of_symbol_cons s p l :
  of_symbol s (p :: l)
  = if decide (symbol p = s) then p :: of_symbol s l else of_symbol s l.
Proof. unfold of_symbol. by rewrite filter_cons. Qed.

(** The profit dictionary after the loop at lines 66-75. *)
Lemma symbol_loop_profits l : forall days (profits : gmap string F)
    (counts : gmap string Z) s,
  (fold_left symbol_step l (days, profits, counts)).1.2 !! s
  = match of_symbol s l with
    | [] => profits !! s
    | _ => Some (fold_left add (map profit (of_symbol s l))
                           (default zero (profits !! s)))
    end.
Proof.
  induction l as [|p l IH]; intros days profits counts s; [done |].
  cbn [fold_left]. unfold symbol_step at 2. rewrite IH, of_symbol_cons.
  destruct (decide (symbol p = s)) as [-> | Hne].
  - rewrite lookup_insert_eq. by destruct (of_symbol _ l).
  - by rewrite lookup_insert_ne.
Qed.

Lemma generate_symbol_data_profit l sd :
  _generate_symbol_data l = Ok sd ->
  symbol_to_profit sd = (fold_left symbol_step l (∅, ∅, ∅)).1.2.
Proof.
  unfold _generate_symbol_data.
  destruct (fold_left symbol_step l (∅, ∅, ∅)) as [[days profits] counts].
  case_bool_decide; [| destruct (_ =? 0)]; cbn; by intros [= <-].
Qed.

Lemma len_of_symbol_zero s l :
  (len (of_symbol s l) =? 0) = true <-> s ∉ map symbol l.
Proof.
  rewrite Z.eqb_eq, len_zero. unfold of_symbol. split.
  - intros Hnil (p & -> & Hp)%list_elem_of_fmap.
    by eapply (filter_nil_not_elem_of _ _ p Hnil).
  - intros Hnot. induction l as [|p l IH]; [done |].
    rewrite filter_cons. destruct (decide (symbol p = s)) as [<- | Hne].
    + destruct Hnot. cbn. left.
    + apply IH. intros Hin. apply Hnot. cbn. by right.
Qed.

Lemma generate_symbol_data_dom l sd :
  _generate_symbol_data l = Ok sd ->
  dom (symbol_to_profit sd) = list_to_set (map symbol l)
  /\ dom (symbol_to_exec_n sd) = list_to_set (map symbol l)
  /\ dom (symbol_to_exec_avg_n sd) = list_to_set (map symbol l).
Proof.
  intros Hsd.
  destruct (generate_symbol_data_spec l) as (sd' & Hsd' & Hn & Havg & _).
  assert (sd' = sd) as -> by congruence.
  assert (forall s, s ∈ (list_to_set (map symbol l) : gset string)
                    <-> (len (of_symbol s l) =? 0) = false) as Hkeys.
  { intros s. rewrite elem_of_list_to_set, <- not_true_iff_false,
      len_of_symbol_zero. split; [tauto |]. apply dec_stable. }
  split_and!; apply set_eq; intros s; rewrite elem_of_dom, Hkeys.
  - rewrite (generate_symbol_data_profit l sd Hsd), symbol_loop_profits.
    rewrite <- not_true_iff_false, Z.eqb_eq, len_zero, lookup_empty.
    destruct (of_symbol s l); split; (done || by intros []).
  - rewrite Hn. destruct (len (of_symbol s l) =? 0);
      split; (done || by intros []).
  - rewrite Havg. destruct (len (of_symbol s l) =? 0);
      split; (done || by intros []).
Qed.

(** X4.  The three dictionaries of the symbol rollup have the same keys,
    the symbols that occur in the input; so each key of the profit
    dictionary is a key of the other two, and on the empty list all three
    are empty. *)
Theorem symbol_dictionaries_keys l :
  exists sd,
    _generate_symbol_data l = Ok sd
    /\ dom (symbol_to_profit sd) = list_to_set (map symbol l)
    /\ dom (symbol_to_exec_n sd) = list_to_set (map symbol l)
    /\ dom (symbol_to_exec_avg_n sd) = list_to_set (map symbol l).
Proof.
  destruct (generate_symbol_data_spec l) as (sd & Hsd & _).
  exists sd. split; [done |]. by apply generate_symbol_data_dom.
Qed.

(** X5.  For each symbol of the input the profit dictionary holds the
    [sum] of the profits of the positions of that symbol, added in input
    order from 0; a symbol that does not occur has no entry. *)
Theorem symbol_profit_totals l :
  exists sd,
    _generate_symbol_data l = Ok sd
    /\ forall s, symbol_to_profit sd !! s =
         if len (of_symbol s l) =? 0 then None
         else Some (py_sum (map profit (of_symbol s l))).
Proof.
  destruct (generate_symbol_data_spec l) as (sd & Hsd & _).
  exists sd. split; [done |]. intros s.
  rewrite (generate_symbol_data_profit l sd Hsd), symbol_loop_profits.
  rewrite lookup_empty.
  destruct (Z.eqb_spec (len (of_symbol s l)) 0) as [Hz | Hnz].
  - apply len_zero in Hz. by rewrite Hz.
  - destruct (of_symbol s l); [by destruct Hnz | done].
Qed.

Lemma sum_profit_values_insert (m : gmap string F) s (v : F) :
  Assoc (=) add -> Comm (=) add ->
  m !! s = None ->
  sum_profit_values (<[s := v]> m) = add v (sum_profit_values m).
Proof.
  intros Hassoc Hcomm Hs. unfold sum_profit_values.
  rewrite map_fold_insert_L; [done | | done].
  intros j1 j2 z1 z2 y _ _ _.
  by rewrite !Hassoc, (Hcomm z1 z2).
Qed.

Lemma sum_profit_values_step (m : gmap string F) s (x : F) :
  Assoc (=) add -> Comm (=) add -> LeftId (=) zero add ->
  sum_profit_values (<[s := add (default zero (m !! s)) x]> m)
  = add (sum_profit_values m) x.
Proof.
  intros Hassoc Hcomm Hid. destruct (m !! s) as [v|] eqn:Hs; cbn.
  - rewrite <- (insert_delete_eq m).
    rewrite sum_profit_values_insert by (done || apply lookup_delete_eq).
    rewrite <- (insert_id m s v Hs) at 2. rewrite <- (insert_delete_eq m).
    rewrite (sum_profit_values_insert (delete s m) s v)
      by (done || apply lookup_delete_eq).
    by rewrite <- !Hassoc, (Hcomm x).
  - rewrite sum_profit_values_insert by done.
    by rewrite Hid, Hcomm.
Qed.

Lemma symbol_loop_profit_sum l : forall days (profits : gmap string F)
    (counts : gmap string Z),
  Assoc (=) add -> Comm (=) add -> LeftId (=) zero add ->
  sum_profit_values (fold_left symbol_step l (days, profits, counts)).1.2
  = fold_left add (map profit l) (sum_profit_values profits).
Proof.
  induction l as [|p l IH]; intros days profits counts Hassoc Hcomm Hid;
    [done |].
  cbn [fold_left map]. unfold symbol_step at 2.
  rewrite IH by done. by rewrite sum_profit_values_step.
Qed.

(** X6.  In an arithmetic whose addition is associative and commutative
    with 0.0 neutral on the left, as the real numbers, the per-symbol
    profits add up to the [sum] of all profits, which is also the general
    profit of a returned report. *)
Theorem symbol_profits_add_up l :
  exists sd,
    _generate_symbol_data l = Ok sd
    /\ (Assoc (=) add -> Comm (=) add -> LeftId (=) zero add ->
        sum_profit_values (symbol_to_profit sd) = py_sum (map profit l)
        /\ forall a, _generate_analysis l = Ok a ->
                     sum_profit_values (symbol_to_profit (symbol_data a))
                     = general_profit (general a)).
Proof.
  destruct (generate_symbol_data_spec l) as (sd & Hsd & _).
  exists sd. split; [done |]. intros Hassoc Hcomm Hid.
  assert (sum_profit_values (symbol_to_profit sd) = py_sum (map profit l))
    as Hsum.
  { rewrite (generate_symbol_data_profit l sd Hsd), symbol_loop_profit_sum
      by done.
    unfold sum_profit_values. by rewrite map_fold_empty. }
  split; [done |].
  intros a (_ & mp & sd' & Hmp & Hsd' & _ & _ & _ & -> & -> & _)
    %generate_analysis_Ok.
  assert (sd' = sd) as -> by congruence. rewrite Hsum.
  destruct l as [|p l]; [done |].
  rewrite calc_monthly_profits_runs in Hmp. injection Hmp as <-.
  symmetry. exact (bucket_sum_conserved Hassoc Hid (p :: l)).
Qed.

End SymbolRollupMore.

(** ** More on the report assembler *)

Section ReportMore.

Context {F : Type} `{PyFloat F}.

Abbreviation position := (EnrichedPosition F).
Implicit Types (p q : position) (l : list position) (a : Analysis F).

Lemma size_list_to_set_le {A : Type} `{Countable A} (xs : list A) :
  (size (list_to_set xs : gset A) <= length xs)%nat.
Proof.
  induction xs as [|x xs IH]; [done |].
  cbn [list_to_set length]. rewrite size_union_alt, size_singleton.
  assert (size ((list_to_set xs : gset A) ∖ {[x]})
          <= size (list_to_set xs : gset A))%nat
    by (by apply subseteq_size, subseteq_difference_l).
  lia.
Qed.

Lemma size_list_to_set_pos {A : Type} `{Countable A} (x : A) (xs : list A) :
  (1 <= size (list_to_set (x :: xs) : gset A))%nat.
Proof.
  cbn [list_to_set]. rewrite <- (size_singleton (C := gset A) x).
  apply subseteq_size, union_subseteq_l.
Qed.

Lemma winning_losing_length l :
  len (winning l) + len (losing l) <= len l.
Proof.
  destruct (disjoint_filters_length
              (fun p => ltb zero (profit p) = true)
              (fun p => ltb (profit p) zero = true) l
              winning_losing_disjoint) as [Hle _].
  fold (winning l) in Hle. fold (losing l) in Hle. unfold len. lia.
Qed.

Lemma analysis_defined_categories l :
  analysis_defined l = true ->
  1 <= len (winning l) /\ 1 <= len (losing l) /\ 2 <= len l.
Proof.
  unfold analysis_defined. intros Hd.
  apply andb_prop in Hd as [Hd _]. apply andb_prop in Hd as [Hw Hl].
  apply negb_true_iff, Z.eqb_neq in Hw, Hl.
  pose proof (winning_losing_length l).
  assert (0 <= len (winning l) /\ 0 <= len (losing l)) by (unfold len; lia).
  lia.
Qed.

(** X7.  [_generate_analysis] never raises [IndexError], nor anything
    but [ZeroDivisionError]: it raises when there is no winning position,
    no losing position, or a daily execution average equal to 0.0, and a
    returned report comes from at least one winning and one losing
    position, so from at least two positions. *)
Theorem analysis_outcome l :
  match _generate_analysis l with
  | Raise e =>
      e = ZeroDivisionError
      /\ (winning l = [] \/ losing l = []
          \/ eqb (div (of_int (len l * 2)) (of_int (traded_days l))) zero
             = true)
  | Ok a => winning l <> [] /\ losing l <> [] /\ 2 <= len l
  end.
Proof.
  destruct (generate_analysis_cases l)
    as [[Hu ->] | [Hd (a & mp & sd & -> & _)]].
  - split; [done |]. unfold analysis_defined in Hu.
    apply andb_false_iff in Hu as [Hu | Hu];
      [apply andb_false_iff in Hu as [Hu | Hu] |].
    + left. by apply negb_false_iff, Z.eqb_eq, len_zero in Hu.
    + right; left. by apply negb_false_iff, Z.eqb_eq, len_zero in Hu.
    + right; right. by apply negb_false_iff in Hu.
  - destruct (analysis_defined_categories l Hd) as (Hw & Hl & Hlen).
    split_and!; [| | done]; intros Hnil; rewrite Hnil in *; unfold len in *;
      cbn in *; lia.
Qed.

(** X8.  In a returned report the number of traded days and the number
    of symbols lie between 1 and the number of positions, the number of
    symbols is the number of entries of each symbol dictionary, there are
    at least 4 executions, each category has at least one trade and the
    two together at most all positions, and the two daily averages are
    the quotients of these counts. *)
Theorem report_counts l a :
  _generate_analysis l = Ok a ->
  1 <= days_n (general a) <= len l
  /\ 1 <= symbols_n (general a) <= len l
  /\ symbols_n (general a)
     = Z.of_nat (size (symbol_to_profit (symbol_data a)))
  /\ symbols_n (general a)
     = Z.of_nat (size (symbol_to_exec_n (symbol_data a)))
  /\ symbols_n (general a)
     = Z.of_nat (size (symbol_to_exec_avg_n (symbol_data a)))
  /\ 4 <= exec_n (general a)
  /\ 1 <= won_n (winning_trades a)
  /\ 1 <= lost_n (losing_trades a)
  /\ won_n (winning_trades a) + lost_n (losing_trades a) <= len l
  /\ daily_exec_n (general a)
     = div (of_int (exec_n (general a))) (of_int (days_n (general a)))
  /\ daily_exec_symbol_n (general a)
     = div (of_int (symbols_n (general a))) (daily_exec_n (general a)).
Proof.
  intros (Hd & mp & sd & _ & Hsd & Hw & Hl & _ & Hdata & _ & Hexec & Hdays
          & Hsym & Hdaily & Hper)%generate_analysis_Ok.
  destruct (analysis_defined_categories l Hd) as (Hwon & Hlost & Hlen).
  destruct (generate_symbol_data_dom l sd Hsd) as (Hdom1 & Hdom2 & Hdom3).
  rewrite calc_winning_trades_eq in Hw. rewrite calc_losing_trades_eq in Hl.
  destruct (len (winning l) =? 0); [done |].
  destruct (len (losing l) =? 0); [done |].
  injection Hw as <-. injection Hl as <-. cbn [won_n lost_n].
  rewrite Hdata, Hexec, Hdays, Hsym, Hdaily, Hper, Hdaily.
  rewrite <- !size_dom, Hdom1, Hdom2, Hdom3.
  pose proof (winning_losing_length l).
  destruct l as [|p l]; [unfold len in Hlen; cbn in Hlen; lia |].
  unfold traded_days, count_symbols.
  pose proof (size_list_to_set_le
                (map (fun p0 => day_key (open_datetime p0)) (p :: l))) as Hd1.
  pose proof (size_list_to_set_pos (day_key (open_datetime p))
                (map (fun p0 => day_key (open_datetime p0)) l)) as Hd2.
  pose proof (size_list_to_set_le (map symbol (p :: l))) as Hs1.
  pose proof (size_list_to_set_pos (symbol p) (map symbol l)) as Hs2.
  rewrite length_map in Hd1, Hs1. cbn [map] in *. unfold len in *.
  split_and!; try done; lia.
Qed.

(** *** The order of the positions *)

Lemma analysis_defined_perm l l' :
  l ≡ₚ l' ->
  traded_days l = traded_days l' /\ count_symbols l = count_symbols l'
  /\ len l = len l'
  /\ len (winning l) = len (winning l') /\ len (losing l) = len (losing l')
  /\ (forall s, len (of_symbol s l) = len (of_symbol s l')).
Proof.
  intros Hperm. unfold traded_days, count_symbols, len, winning, losing,
    of_symbol.
  split_and!; try intros s; f_equal.
  - f_equal. apply list_to_set_perm_L. by apply Permutation_map.
  - f_equal. apply list_to_set_perm_L. by apply Permutation_map.
  - by apply Permutation_length.
  - by apply Permutation_length, filter_Permutation.
  - by apply Permutation_length, filter_Permutation.
  - by apply Permutation_length, filter_Permutation.
Qed.

(** X9.  Reordering the positions changes neither whether a report is
    returned nor its counts: the traded days, the symbols, the
    executions, the two daily averages, the numbers of winning and losing
    trades, and the per-symbol execution counts and averages are those of
    any permutation of the input. *)
Theorem counts_independent_of_order l l' :
  l ≡ₚ l' ->
  analysis_defined l = analysis_defined l'
  /\ (exists sd sd',
        _generate_symbol_data l = Ok sd
        /\ _generate_symbol_data l' = Ok sd'
        /\ symbol_to_exec_n sd = symbol_to_exec_n sd'
        /\ symbol_to_exec_avg_n sd = symbol_to_exec_avg_n sd')
  /\ (forall a a',
        _generate_analysis l = Ok a -> _generate_analysis l' = Ok a' ->
        days_n (general a) = days_n (general a')
        /\ symbols_n (general a) = symbols_n (general a')
        /\ exec_n (general a) = exec_n (general a')
        /\ daily_exec_n (general a) = daily_exec_n (general a')
        /\ daily_exec_symbol_n (general a) = daily_exec_symbol_n (general a')
        /\ won_n (winning_trades a) = won_n (winning_trades a')
        /\ lost_n (losing_trades a) = lost_n (losing_trades a')).
Proof.
  intros Hperm.
  destruct (analysis_defined_perm l l' Hperm)
    as (Hdays & Hsyms & Hlen & Hwon & Hlost & Hof).
  split_and!.
  - unfold analysis_defined. by rewrite Hdays, Hlen, Hwon, Hlost.
  - destruct (generate_symbol_data_spec l) as (sd & Hsd & Hn & Havg & _).
    destruct (generate_symbol_data_spec l') as (sd' & Hsd' & Hn' & Havg' & _).
    exists sd, sd'. split_and!; [done | done | |]; apply map_eq; intros s.
    + by rewrite Hn, Hn', Hof.
    + by rewrite Havg, Havg', Hof, Hdays.
  - intros a a'
      (_ & mp & sd & _ & _ & Hw & Hl & _ & _ & _ & Hexec & Hd & Hs & Hdaily
       & Hper)%generate_analysis_Ok
      (_ & mp' & sd' & _ & _ & Hw' & Hl' & _ & _ & _ & Hexec' & Hd' & Hs'
       & Hdaily' & Hper')%generate_analysis_Ok.
    rewrite calc_winning_trades_eq in Hw, Hw'.
    rewrite calc_losing_trades_eq in Hl, Hl'.
    rewrite <- Hwon in Hw'. rewrite <- Hlost in Hl'.
    destruct (len (winning l) =? 0); [done |].
    destruct (len (losing l) =? 0); [done |].
    injection Hw as <-. injection Hw' as <-.
    injection Hl as <-. injection Hl' as <-. cbn [won_n lost_n].
    rewrite Hper, Hper', Hdaily, Hdaily', Hexec, Hexec', Hd, Hd', Hs, Hs'.
    by rewrite Hdays, Hsyms, Hlen.
Qed.

End ReportMore.

(** ** The fields the report depends on *)

Section Frame.

Context {F : Type} `{PyFloat F}.

Abbreviation position := (EnrichedPosition F).
Implicit Types (p q : position) (l : list position).

Lemma same_inputs_open_date p q :
  same_inputs p q ->
  open_month p = open_month q
  /\ date (open_datetime p) = date (open_datetime q).
Proof.
  intros (_ & _ & Hday). unfold day_key in Hday. injection Hday as Hd Hm Hy.
  unfold open_month, date. by rewrite Hd, Hm, Hy.
Qed.

Lemma same_inputs_monthly_loop l l' :
  Forall2 same_inputs l l' ->
  forall st, fold_left monthly_step l st = fold_left monthly_step l' st.
Proof.
  induction 1 as [|p q l l' Hpq _ IH]; intros st; [done |].
  cbn [fold_left]. rewrite <- IH. f_equal.
  destruct (same_inputs_open_date p q Hpq) as [Hm _].
  destruct Hpq as (Hprofit & _). destruct st as [[results m] c].
  unfold monthly_step. fold (open_month p). fold (open_month q).
  by rewrite Hm, Hprofit.
Qed.

Lemma same_inputs_symbol_loop l l' :
  Forall2 same_inputs l l' ->
  forall st, fold_left symbol_step l st = fold_left symbol_step l' st.
Proof.
  induction 1 as [|p q l l' Hpq _ IH]; intros st; [done |].
  cbn [fold_left]. rewrite <- IH. f_equal.
  destruct Hpq as (Hprofit & Hsymbol & Hday). destruct st as [[days P] C].
  unfold symbol_step. by rewrite Hprofit, Hsymbol, Hday.
Qed.

Lemma same_inputs_filter (P : F -> Prop) `{!forall x, Decision (P x)} l l' :
  Forall2 same_inputs l l' ->
  map profit (filter (fun p => P (profit p)) l)
  = map profit (filter (fun p => P (profit p)) l').
Proof.
  induction 1 as [|p q l l' Hpq _ IH]; [done |].
  destruct Hpq as (Hprofit & _). rewrite !filter_cons, <- Hprofit.
  destruct (decide (P (profit p))); cbn [map]; by rewrite IH, ?Hprofit.
Qed.

Lemma same_inputs_maps l l' :
  Forall2 same_inputs l l' ->
  len l = len l'
  /\ traded_days l = traded_days l'
  /\ count_symbols l = count_symbols l'.
Proof.
  intros Hsame. unfold len, traded_days, count_symbols.
  rewrite (Forall2_length _ _ _ Hsame).
  assert (map (fun p => day_key (open_datetime p)) l
          = map (fun p => day_key (open_datetime p)) l'
          /\ map symbol l = map symbol l') as [-> ->]; [| done].
  induction Hsame as [|p q l l' (_ & Hs & Hd) _ [IH1 IH2]]; [done |].
  cbn [map]. by rewrite Hs, Hd, IH1, IH2.
Qed.

(** X10.  The report depends on the profit, the symbol and the open day
    of each position and on the close date of the last one, and on
    nothing else: two inputs that agree on these give the same outcome,
    whatever their prices, timestamps, volatilities, times of day and
    other close times. *)
Theorem report_reads_only l l' :
  Forall2 same_inputs l l' ->
  (fun p => date (close_datetime p)) <$> last l
  = (fun p => date (close_datetime p)) <$> last l' ->
  _generate_analysis l = _generate_analysis l'.
Proof.
  intros Hsame Hlast.
  destruct (same_inputs_maps l l' Hsame) as (Hlen & Hdays & Hsyms).
  assert (calc_winning_trades l = calc_winning_trades l') as Hw.
  { pose proof (same_inputs_filter (fun x => ltb zero x = true) l l' Hsame)
      as Hf. cbn beta in Hf.
    unfold calc_winning_trades, winning, len.
    rewrite <- !(length_map profit). by rewrite Hf. }
  assert (calc_losing_trades l = calc_losing_trades l') as Hl.
  { pose proof (same_inputs_filter (fun x => ltb x zero = true) l l' Hsame)
      as Hf. cbn beta in Hf.
    unfold calc_losing_trades, losing, len.
    rewrite <- !(length_map profit). by rewrite Hf. }
  assert (_calc_monthly_profits l = _calc_monthly_profits l') as Hm.
  { unfold _calc_monthly_profits.
    pose proof (same_inputs_monthly_loop l l' Hsame) as Hloop.
    destruct Hsame as [|p q l l' Hpq _]; [done |].
    destruct (same_inputs_open_date p q Hpq) as [Hmonth _].
    unfold open_month in Hmonth. by rewrite Hloop, Hmonth. }
  assert (_generate_symbol_data l = _generate_symbol_data l') as Hs.
  { unfold _generate_symbol_data.
    by rewrite (same_inputs_symbol_loop l l' Hsame). }
  unfold _generate_analysis. rewrite Hlen, Hdays, Hsyms, Hw, Hl, Hm, Hs.
  destruct (int_truediv_int _ _) as [avg|]; [| done]. cbn [mbind result_bind].
  destruct (int_truediv_float _ _) as [per|]; [| done].
  cbn [mbind result_bind].
  destruct (calc_winning_trades l') as [w|]; [| done].
  cbn [mbind result_bind].
  destruct (calc_losing_trades l') as [lo|]; [| done].
  cbn [mbind result_bind].
  destruct (_calc_monthly_profits l') as [mp|]; [| done].
  cbn [mbind result_bind].
  destruct (calc_sharpe_ratio mp) as [sr|]; [| done].
  cbn [mbind result_bind].
  destruct Hsame as [|p q l l' Hpq Hrest]; [done |].
  destruct (same_inputs_open_date p q Hpq) as [_ Hdate].
  cbn [first_item mbind result_bind]. unfold last_item.
  destruct (last (p :: l)) as [x|] eqn:Hx, (last (q :: l')) as [y|] eqn:Hy;
    cbn -[date] in Hlast; try done.
  cbn [mbind result_bind].
  assert (date (close_datetime x) = date (close_datetime y)) as Hend
    by congruence.
  destruct (_generate_symbol_data (q :: l')) as [sd|]; [| done].
  cbn [mbind result_bind]. by rewrite Hdate, Hend.
Qed.

End Frame.

(** ** The date range of the report *)

Section DateRange.

Context {F : Type} `{PyFloat F}.

Abbreviation position := (EnrichedPosition F).
Implicit Types (p q : position) (l : list position) (a : Analysis F).

(** [datetime_compare] is the lexicographic order of the six fields. *)
Lemma datetime_compare_le (a b : datetime) :
  datetime_compare a b <> Gt <->
  year a < year b \/ (year a = year b /\
  (month a < month b \/ (month a = month b /\
  (day a < day b \/ (day a = day b /\
  (hour a < hour b \/ (hour a = hour b /\
  (minute a < minute b \/ (minute a = minute b /\
   second a <= second b))))))))).
Proof.
  unfold datetime_compare.
  destruct (Z.compare_spec (year a) (year b)); [| split; [lia | done] |
    split; [done | lia]].
  destruct (Z.compare_spec (month a) (month b)); [| split; [lia | done] |
    split; [done | lia]].
  destruct (Z.compare_spec (day a) (day b)); [| split; [lia | done] |
    split; [done | lia]].
  destruct (Z.compare_spec (hour a) (hour b)); [| split; [lia | done] |
    split; [done | lia]].
  destruct (Z.compare_spec (minute a) (minute b)); [| split; [lia | done] |
    split; [done | lia]].
  rewrite <- Z.leb_le, Z.leb_compare.
  destruct (second a ?= second b); split; (done || lia || intuition).
Qed.

Lemma datetime_compare_antisym (a b : datetime) :
  datetime_compare b a = CompOpp (datetime_compare a b).
Proof.
  unfold datetime_compare.
  rewrite (Z.compare_antisym (year a) (year b)),
    (Z.compare_antisym (month a) (month b)),
    (Z.compare_antisym (day a) (day b)),
    (Z.compare_antisym (hour a) (hour b)),
    (Z.compare_antisym (minute a) (minute b)),
    (Z.compare_antisym (second a) (second b)).
  destruct (year a ?= year b); cbn; try done.
  destruct (month a ?= month b); cbn; try done.
  destruct (day a ?= day b); cbn; try done.
  destruct (hour a ?= hour b); cbn; try done.
  destruct (minute a ?= minute b); cbn; done.
Qed.

Lemma datetime_ltb_asym (a b : datetime) :
  datetime_ltb a b = true -> datetime_ltb b a = false.
Proof.
  unfold datetime_ltb. rewrite (datetime_compare_antisym a b).
  by destruct (datetime_compare a b).
Qed.

Lemma datetime_compare_le_trans (a b c : datetime) :
  datetime_compare a b <> Gt -> datetime_compare b c <> Gt ->
  datetime_compare a c <> Gt.
Proof. rewrite !datetime_compare_le. lia. Qed.

Lemma datetime_ltb_false (a b : datetime) :
  datetime_ltb a b = false -> datetime_compare b a <> Gt.
Proof.
  unfold datetime_ltb. rewrite (datetime_compare_antisym a b).
  by destruct (datetime_compare a b).
Qed.

Lemma datetime_ltb_negtrans (a b c : datetime) :
  datetime_ltb a c = true ->
  datetime_ltb a b = true \/ datetime_ltb b c = true.
Proof.
  intros Hac.
  destruct (datetime_ltb a b) eqn:Hab; [by left |].
  destruct (datetime_ltb b c) eqn:Hbc; [by right |].
  apply datetime_ltb_false in Hab, Hbc.
  pose proof (datetime_compare_le_trans c b a Hbc Hab) as Hca.
  rewrite (datetime_compare_antisym a c) in Hca.
  unfold datetime_ltb in Hac. by destruct (datetime_compare a c).
Qed.




End DateRange.

(** ** The caller *)

Section MainProperties.

Context {F : Type} `{PyFloat F}.
Context {A K : Type} (lt : K -> K -> bool) (key : A -> K).

Lemma sort_insert_perm (x : A) (l : list A) : sort_insert lt key x l ≡ₚ x :: l.
Proof.
  induction l as [|y l IH]; [done |]. cbn.
  destruct (lt (key y) (key x)); [| done].
  rewrite IH. apply perm_swap.
Qed.

Lemma list_sort_perm (l : list A) : list_sort lt key l ≡ₚ l.
Proof.
  induction l as [|x l IH]; [done |].
  cbn. rewrite sort_insert_perm. by constructor.
Qed.

Lemma ascending_cons (x : A) (l : list A) :
  ascending lt key (x :: l)
  <-> (forall y, head l = Some y -> lt (key y) (key x) = false)
      /\ ascending lt key l.
Proof.
  unfold ascending. split.
  - intros Hasc. split.
    + intros y Hy. apply (Hasc 0%nat x y); [done |]. by destruct l.
    + intros i a b Ha Hb. by apply (Hasc (S i) a b).
  - intros [Hhead Hasc] [|i] a b Ha Hb.
    + cbn in Ha. injection Ha as <-. apply Hhead. by destruct l.
    + by apply (Hasc i a b).
Qed.

Lemma head_sort_insert (x z : A) (l : list A) :
  head (sort_insert lt key x l) = Some z -> z = x \/ head l = Some z.
Proof.
  destruct l as [|y l]; cbn; [by intros [= <-]; left |].
  destruct (lt (key y) (key x)); cbn; intros [= <-]; by eauto.
Qed.

Lemma sort_insert_ascending (x : A) (l : list A) :
  (forall a b, lt a b = true -> lt b a = false) ->
  ascending lt key l -> ascending lt key (sort_insert lt key x l).
Proof.
  intros Hasym. induction l as [|y l IH]; intros Hasc.
  - apply ascending_cons. split; [done |]. by intros [|?] ? ? ?.
  - cbn. apply ascending_cons in Hasc as [Hhead Hasc].
    destruct (lt (key y) (key x)) eqn:Hyx.
    + apply ascending_cons. split; [| by apply IH].
      intros z [-> | Hz]%head_sort_insert; [by apply Hasym | by apply Hhead].
    + apply ascending_cons. split; [by intros ? [= <-] |].
      by apply ascending_cons.
Qed.

Lemma list_sort_ascending (l : list A) :
  (forall a b, lt a b = true -> lt b a = false) ->
  ascending lt key (list_sort lt key l).
Proof.
  intros Hasym. induction l as [|x l IH]; [by intros [|?] ? ? ? |].
  cbn. by apply sort_insert_ascending.
Qed.

End MainProperties.

Section MainTheorems.

Context {F : Type} `{PyFloat F}.
Variable to_dt : Z -> datetime.
Variable lt : datetime -> datetime -> bool.

Abbreviation position := (EnrichedPosition F).

Lemma elem_of_all_positions (e : position) (results : list (Raw.Result F)) :
  e ∈ all_positions to_dt results <->
  exists r x, r ∈ results /\ x ∈ Raw.positions r /\ e = enrich to_dt r x.
Proof.
  unfold all_positions. rewrite list_elem_of_In, in_flat_map. split.
  - intros (r & Hr & He). apply in_map_iff in He as (x & <- & Hx).
    exists r, x. by rewrite !list_elem_of_In.
  - intros (r & x & Hr & Hx & ->). exists r. rewrite <- list_elem_of_In.
    split; [done |]. apply in_map. by rewrite <- list_elem_of_In.
Qed.

Lemma raw_fields_enrich (r : Raw.Result F) (x : Raw.Position F) :
  raw_fields (enrich to_dt r x) = x.
Proof. by destruct x. Qed.

(** X12.  Every position [main] hands to the analysis is a raw position
    of some batch with the symbol and volatility of that batch added, its
    seven raw fields unchanged and its two datetimes converted from its
    own two timestamps; going back to the raw fields gives the raw
    positions of the file, batch after batch. *)
Theorem main_enriches (results : list (Raw.Result F)) :
  map raw_fields (all_positions to_dt results)
  = flat_map Raw.positions results
  /\ forall e,
       e ∈ list_sort lt open_datetime (all_positions to_dt results) ->
       open_datetime e = to_dt (open_timestamp e)
       /\ close_datetime e = to_dt (close_timestamp e)
       /\ exists r, r ∈ results
                    /\ raw_fields e ∈ Raw.positions r
                    /\ symbol e = Raw.symbol r
                    /\ std_dev e = Raw.std_dev r.
Proof.
  split.
  - unfold all_positions. induction results as [|r results IH]; [done |].
    cbn [flat_map]. rewrite map_app, IH, map_map. f_equal.
    rewrite <- (map_id (Raw.positions r)) at 2.
    apply map_ext. intros x. apply raw_fields_enrich.
  - intros e He. rewrite list_sort_perm in He.
    apply elem_of_all_positions in He as (r & x & Hr & Hx & ->).
    split_and!; [done | done |]. exists r.
    by rewrite raw_fields_enrich.
Qed.

(** X13.  The list [main] hands to the analysis is a permutation of the
    enriched positions, and it is in ascending order of open datetime
    when [<] on datetimes is a strict weak order (asymmetric, and with
    [a < c] only if [a < b] or [b < c]), the case in which the stable
    sort of the model is that of Python. *)
Theorem main_sorts (results : list (Raw.Result F)) :
  list_sort lt open_datetime (all_positions to_dt results)
  ≡ₚ all_positions to_dt results
  /\ ((forall a b, lt a b = true -> lt b a = false) ->
      (forall a b c, lt a c = true -> lt a b = true \/ lt b c = true) ->
      ascending lt open_datetime
        (list_sort lt open_datetime (all_positions to_dt results))).
Proof.
  split; [apply list_sort_perm |].
  intros Hasym _. by apply list_sort_ascending.
Qed.





End MainTheorems.

(** ** The further properties on concrete inputs *)

(** [main] on two batches whose positions interleave in time: the three
    positions are analysed in the order of their open times. *)
Example main_two_batches :
  map profit
    (list_sort datetime_ltb open_datetime
       (all_positions MoreInputs.january_2020 MoreInputs.two_batches))
  = [(-4)%float; 2%float; 10%float]
  /\ exists a,
       main MoreInputs.january_2020 datetime_ltb MoreInputs.two_batches = Ok a
       /\ exec_n (general a) = 6
       /\ symbols_n (general a) = 2
       /\ start (general a) = (2020, 1, 2)
       /\ end_ (general a) = (2020, 1, 3).
Proof. vm_compute. split; [done |]. eexists. split_and!; reflexivity. Qed.

(** January, then February: the bucketing splits between the two. *)
Lemma monthly_profits_split_witness :
  open_month (Inputs.at_day "A" 2020 1 31 1%float)
  <> open_month (Inputs.at_day "A" 2020 2 4 (-2)%float)
  /\ exists buckets1,
       _calc_monthly_profits
         ([Inputs.at_day "A" 2020 1 30 3%float]
          ++ [Inputs.at_day "A" 2020 1 31 1%float]) = Ok buckets1
       /\ _calc_monthly_profits
            ([Inputs.at_day "A" 2020 1 30 3%float]
             ++ Inputs.at_day "A" 2020 1 31 1%float
                :: Inputs.at_day "A" 2020 2 4 (-2)%float
                :: [Inputs.at_day "A" 2021 1 5 4%float])
          = Ok (buckets1
                ++ map run_total
                     (month_runs
                        (Inputs.at_day "A" 2020 2 4 (-2)%float
                         :: [Inputs.at_day "A" 2021 1 5 4%float]))).
Proof.
  split; [vm_compute; discriminate |].
  apply (monthly_profits_split
           [Inputs.at_day "A" 2020 1 30 3%float]
           (Inputs.at_day "A" 2020 1 31 1%float)
           (Inputs.at_day "A" 2020 2 4 (-2)%float)
           [Inputs.at_day "A" 2021 1 5 4%float]).
  vm_compute. discriminate.
Defined.

(** Over the reals the per-symbol profits add up to the total. *)
Lemma symbol_profits_add_up_witness :
  exists sd,
    _generate_symbol_data Inputs.same_day_exact = Ok sd
    /\ sum_profit_values (symbol_to_profit sd)
       = py_sum (map profit Inputs.same_day_exact).
Proof.
  destruct (symbol_profits_add_up Inputs.same_day_exact) as (sd & Hsd & Hsum).
  exists sd. split; [exact Hsd |]. apply Hsum.
  - intros x y z. symmetry. apply Rplus_assoc.
  - intros x y. apply Rplus_comm.
  - intros x. apply Rplus_0_l.
Defined.

(** The report of [Inputs.same_day] and its counts. *)
Lemma report_counts_witness :
  exists a,
    _generate_analysis Inputs.same_day = Ok a
    /\ 1 <= days_n (general a) <= len Inputs.same_day
    /\ 1 <= symbols_n (general a) <= len Inputs.same_day.
Proof.
  assert (analysis_defined Inputs.same_day = true) as Hd
    by (vm_compute; reflexivity).
  destruct (generate_analysis_defined Inputs.same_day Hd)
    as (a & _ & _ & Ha & _).
  exists a. split; [exact Ha |].
  destruct (report_counts Inputs.same_day a Ha) as (Hdays & Hsyms & _).
  split; [exact Hdays | exact Hsyms].
Defined.

(** [Inputs.same_day] and the same two positions in the other order. *)
Lemma counts_independent_of_order_witness :
  Inputs.same_day ≡ₚ MoreInputs.same_day_reversed
  /\ analysis_defined Inputs.same_day
     = analysis_defined MoreInputs.same_day_reversed.
Proof.
  assert (Inputs.same_day ≡ₚ MoreInputs.same_day_reversed) as Hperm
    by apply perm_swap.
  split; [exact Hperm |].
  exact (proj1 (counts_independent_of_order
                  Inputs.same_day MoreInputs.same_day_reversed Hperm)).
Defined.

(** [Inputs.same_day] and the same profits, symbol and day with other
    values in every other field. *)
Lemma report_reads_only_witness :
  Forall2 same_inputs Inputs.same_day MoreInputs.same_day_other_fields
  /\ (fun p => date (close_datetime p)) <$> last Inputs.same_day
     = (fun p => date (close_datetime p))
       <$> last MoreInputs.same_day_other_fields
  /\ _generate_analysis Inputs.same_day
     = _generate_analysis MoreInputs.same_day_other_fields.
Proof.
  assert (Forall2 same_inputs Inputs.same_day
            MoreInputs.same_day_other_fields) as Hsame.
  { repeat constructor. }
  split; [exact Hsame |]. split; [reflexivity |].
  apply (report_reads_only _ _ Hsame). reflexivity.
Defined.


(** With the field-by-field order of datetimes the positions of two
    interleaved batches come out in ascending order. *)
Lemma main_sorts_witness :
  ascending datetime_ltb open_datetime
    (list_sort datetime_ltb open_datetime
       (all_positions MoreInputs.january_2020 MoreInputs.two_batches)).
Proof.
  apply (main_sorts MoreInputs.january_2020 datetime_ltb
           MoreInputs.two_batches).
  - apply datetime_ltb_asym.
  - apply datetime_ltb_negtrans.
Defined.
